(** * The configuration discovery and merge engine of service-container

    A shallow embedding of [lib/Builder.js] and [lib/Definition.js]: the
    recursive discovery of the [services.json] files, the hierarchy sorter,
    the import and namespace resolver, the definition normalizer and the
    [Definition] entity, followed by the properties proved about them. *)

From Stdlib Require Import ZArith String Ascii List Bool Permutation Lia.
From stdpp Require Import gmap strings list sorting.

Set Warnings "-register-all".

Local Open Scope string_scope.
Local Open Scope list_scope.

(** ** JavaScript values *)

Module JS.

(** A JavaScript number, as far as the builder computes with one: the
    hierarchy levels are integers or [NaN].  A number is a double: the
    integers it holds are those of magnitude up to [2 ^ 53], the even ones
    up to [2 ^ 54], the multiples of four up to [2 ^ 55], and so on. *)
Inductive number : Type :=
| NaN
| Int (z : Z).

(** A possibly missing value: [None] is JavaScript's [undefined]. *)
Definition ToNumber (v : option number) : number :=
  match v with
  | None => NaN
  | Some n => n
  end.

(** [z + 1] on doubles, for a double [z] that is an integer: exact up to
    [2 ^ 53] in magnitude; beyond, the sum lies half way between the doubles
    [z] and [z + 2] as long as [z] is below [2 ^ 54] in magnitude, and is
    rounded to the one with the even significand, the multiple of four;
    further out it is rounded back to [z]. *)
Definition double_plus_one (z : Z) : Z :=
  if (Z.abs (z + 1) <=? 2 ^ 53)%Z then (z + 1)%Z
  else if (Z.abs z <? 2 ^ 54)%Z && negb (z mod 4 =? 0)%Z then (z + 2)%Z
  else z.

(** [v + 1] *)
Definition plus_one (v : option number) : number :=
  match ToNumber v with
  | NaN => NaN
  | Int z => Int (double_plus_one z)
  end.

(** [a < b]: false as soon as one side is [NaN]. *)
Definition less_than (a b : option number) : bool :=
  match ToNumber a, ToNumber b with
  | Int x, Int y => (x <? y)%Z
  | _, _ => false
  end.

(** What a comparison function hands to [Array.prototype.sort] once the
    engine has applied [ToNumber] to it: [true] is [1], [false] is [0]. *)
Definition ToNumber_bool (b : bool) : Z := if b then 1%Z else 0%Z.

(** The data a configuration file holds. *)
Inductive json : Type :=
| JNull
| JBool (b : bool)
| JNum (z : Z)
| JStr (s : string)
| JArr (items : list json)
| JObj (fields : list (string * json)).

(** A value at run time: the data of a file, or [undefined], also inside
    an array. *)
Inductive value : Type :=
| VUndefined
| VNull
| VBool (b : bool)
| VNum (z : Z)
| VStr (s : string)
| VArr (items : list value)
| VObj (fields : list (string * value)).

Fixpoint of_json (j : json) : value :=
  match j with
  | JNull => VNull
  | JBool b => VBool b
  | JNum z => VNum z
  | JStr s => VStr s
  | JArr items => VArr (List.map of_json items)
  | JObj fields => VObj (List.map (fun kv => (fst kv, of_json (snd kv))) fields)
  end.

(** Reading a field that may be absent. *)
Definition get (field : option json) : value :=
  match field with
  | None => VUndefined
  | Some j => of_json j
  end.

Definition nonempty (s : string) : bool :=
  match s with
  | EmptyString => false
  | String _ _ => true
  end.

(** [ToBoolean] *)
Definition truthy (v : value) : bool :=
  match v with
  | VUndefined | VNull => false
  | VBool b => b
  | VNum z => negb (z =? 0)%Z
  | VStr s => nonempty s
  | VArr _ | VObj _ => true
  end.

(** [typeof v === 'string'] *)
Definition is_string (v : value) : bool :=
  match v with
  | VStr _ => true
  | _ => false
  end.

End JS.

Import JS.

(** ** Strings and the patterns of the builder *)

Module Pattern.

(** The regular expressions of the builder are a sequence of characters in
    which [.] stands for any character but a line terminator, anchored at
    the end of the input by [$]; [new RegExp(body + "$")] is kept as the
    atoms of [body].  An environment name is read the same way, which is
    what the engine does for a name without the operators
    [\ ^ $ * + ? ( ) [ ] { } |]. *)
Inductive atom : Type :=
| Lit (c : ascii)
| AnyChar.

Definition line_terminator (c : ascii) : bool :=
  Ascii.eqb c "010"%char || Ascii.eqb c "013"%char.

Definition atom_matches (a : atom) (c : ascii) : bool :=
  match a with
  | Lit x => Ascii.eqb x c
  | AnyChar => negb (line_terminator c)
  end.

Fixpoint RegExp (body : string) : list atom :=
  match body with
  | EmptyString => []
  | String c rest =>
      (if Ascii.eqb c "."%char then AnyChar else Lit c) :: RegExp rest
  end.

(** The atoms match the input from here to its end. *)
Fixpoint matches_to_end (p : list atom) (s : string) : bool :=
  match p, s with
  | [], EmptyString => true
  | a :: p', String c s' => atom_matches a c && matches_to_end p' s'
  | _, _ => false
  end.

(** [pattern.test(s)]: some suffix of the input matches. *)
Fixpoint test (p : list atom) (s : string) : bool :=
  matches_to_end p s
  || match s with
     | EmptyString => false
     | String _ s' => test p s'
     end.

(** A character that stands for itself in a regular expression, or the
    dot: a letter, a digit, [_], [-] or [.]. *)
Definition plain_char (c : ascii) : bool :=
  let n := N_of_ascii c in
  ((48 <=? n) && (n <=? 57) || (65 <=? n) && (n <=? 90) || (97 <=? n) && (n <=? 122)
   || (n =? 95) || (n =? 45) || (n =? 46))%N.

(** A name for which [RegExp] above is what the engine compiles. *)
Fixpoint plain (name : string) : bool :=
  match name with
  | EmptyString => true
  | String c rest => plain_char c && plain rest
  end.

(** A string of ASCII characters: one character of the string is one
    character for the engine. *)
Fixpoint ascii_only (s : string) : bool :=
  match s with
  | EmptyString => true
  | String c rest => (N_of_ascii c <? 128)%N && ascii_only rest
  end.

End Pattern.

(** [s.indexOf(needle) === -1] *)
Definition indexOf_is_minus_one (s needle : string) : bool :=
  match String.index 0 needle s with
  | None => true
  | Some _ => false
  end.

(** ** The data model *)

(** A raw service record, as authored: every field is optional. *)
Record RawServiceRecord : Type := mkRaw {
  raw_class : option json;
  raw_constructorMethod : option json;
  raw_arguments : option json;
  raw_calls : option json;
  raw_properties : option json;
  raw_isObject : option json;
  raw_isFunction : option json;
  raw_isSingleton : option json;
  raw_tags : option json
}.

(** The parsed content of one file.  [parameters] and [services] list the
    keys in the order [for ... in] enumerates them; a missing [imports],
    [parameters] or [services] is the empty list, over which [for ... in]
    does not iterate either. *)
Module Config.

Record t : Type := mk {
  namespace : option string;
  imports : list string;
  parameters : list (string * json);
  services : list (string * RawServiceRecord)
}.

End Config.

Abbreviation ConfigRecord := Config.t.

(** The object pushed by [findServiceJsonFiles] and built for an import by
    [parseFile]: an import carries neither [isEnvFile] nor [isParamFile]
    ([None]), a discovered file carries no [config]. *)
Record FileDescriptor : Type := mkFile {
  file : string;
  dir : string;
  level : option number;
  isEnvFile : option bool;
  isParamFile : option bool;
  config : option ConfigRecord
}.

Definition flag (f : option bool) : bool :=
  match f with
  | Some b => b
  | None => false
  end.

(** [options.env] is a name, [false], or missing. *)
Inductive env_option : Type :=
| EnvUndefined
| EnvFalse
| EnvName (name : string).

Record Options : Type := mkOptions {
  env : env_option;
  ignoreNodeModulesDirectory : option bool
}.

(** The builder: [fs], [require], [Container] and [Definition] are handed
    to the constructor once and never change; [options] is the field that
    [buildContainer] assigns. *)
Record Builder : Type := mkBuilder {
  options : Options
}.

(** [new Builder(fs, require, Container, Definition)] *)
Definition new_Builder : Builder :=
  {| options := {| env := EnvFalse; ignoreNodeModulesDirectory := Some true |} |}.

(** The name [this.options.env] stands for when it is truthy. *)
Definition env_name (e : env_option) : option string :=
  match e with
  | EnvName name => if nonempty name then Some name else None
  | _ => None
  end.

(** The file system below the root directory, in the order [readdirSync]
    lists each directory; [Other] is an entry that is neither a file nor a
    directory. *)
Inductive node : Type :=
| File
| Other
| Directory (entries : list (string * node)).

(** ** The File Discoverer *)

Section Discoverer.

Variable this : Builder.

Definition pattern : list Pattern.atom := Pattern.RegExp "services.json".
Definition parameterPattern : list Pattern.atom := Pattern.RegExp "parameters.json".
(** [envPattern] is what line 80 compiles when the environment name is a
    plain name ([Pattern.plain]): the engine reads an operator in the name
    as an operator, or refuses the expression. *)
Definition envPattern : option (list Pattern.atom) :=
  match env_name (env (options this)) with
  | Some name => Some (Pattern.RegExp ("services_" +:+ name +:+ ".json"))
  | None => None
  end.

(** The body of the [else if (stat.isFile())] branch. *)
Definition classify (filepath absolutePath : string) (level : option number)
  : list FileDescriptor :=
  if Pattern.test pattern filepath then
    [mkFile filepath absolutePath level (Some false) (Some false) None]
  else if Pattern.test parameterPattern filepath then
    [mkFile filepath absolutePath level (Some false) (Some true) None]
  else
    match envPattern with
    | Some p =>
        if Pattern.test p filepath then
          [mkFile filepath absolutePath level (Some true) (Some false) None]
        else []
    | None => []
    end.

(** The condition under which the walk enters the directory [filepath]. *)
Definition enters (filepath : string) : bool :=
  negb (flag (ignoreNodeModulesDirectory (options this)))
  || indexOf_is_minus_one filepath "node_modules".

(** [findServiceJsonFiles(absolutePath, level)], with the directory found
    at [absolutePath].  [readdirSync] throws on anything but a directory;
    the walk calls itself on directories only. *)
Fixpoint findServiceJsonFiles (here : node) (absolutePath : string)
    (level : option number) {struct here} : list FileDescriptor :=
  match here with
  | Directory files =>
      (fix for_in (files : list (string * node)) (svcjsonfiles : list FileDescriptor)
         {struct files} : list FileDescriptor :=
         match files with
         | [] => svcjsonfiles
         | (name, stat) :: rest =>
             let filepath := absolutePath +:+ "/" +:+ name in
             for_in rest
               match stat with
               | Directory _ =>
                   if enters filepath
                   then svcjsonfiles
                          ++ findServiceJsonFiles stat filepath (Some (plus_one level))
                   else svcjsonfiles
               | File => svcjsonfiles ++ classify filepath absolutePath level
               | Other => svcjsonfiles
               end
         end) files []
  | _ => []
  end.

End Discoverer.

(** ** The Hierarchy Sorter *)

(** The comparison function handed to [sort]: it answers [true] or
    [false]. *)
Definition sortFunc (a b : FileDescriptor) : bool :=
  less_than (level a) (level b).

Section Sorter.

(** [Array.prototype.sort] of the engine the builder runs on, given the
    comparison function after [ToNumber]. *)
Variable array_sort :
  (FileDescriptor -> FileDescriptor -> Z) -> list FileDescriptor -> list FileDescriptor.

(** The three arrays filled by the loop of [sortFilesByHierarchy]. *)
Record groups : Type := mkGroups {
  envFiles : list FileDescriptor;
  nonEnvFiles : list FileDescriptor;
  parameterFiles : list FileDescriptor
}.

Definition push_group (g : groups) (f : FileDescriptor) : groups :=
  if flag (isEnvFile f) then
    mkGroups (envFiles g ++ [f]) (nonEnvFiles g) (parameterFiles g)
  else if flag (isParamFile f) then
    mkGroups (envFiles g) (nonEnvFiles g) (parameterFiles g ++ [f])
  else
    mkGroups (envFiles g) (nonEnvFiles g ++ [f]) (parameterFiles g).

Definition sortFilesByHierarchy (files : list FileDescriptor) : list FileDescriptor :=
  let g := fold_left push_group files (mkGroups [] [] []) in
  let cmp := fun a b => ToNumber_bool (sortFunc a b) in
  let envFiles := array_sort cmp (envFiles g) in
  let nonEnvFiles := array_sort cmp (nonEnvFiles g) in
  let result := nonEnvFiles ++ envFiles in
  result ++ parameterFiles g.

End Sorter.

(** ** The Definition entity *)

Module Def.

Record t : Type := mk {
  file : value;
  namespace : value;
  rootDirectory : value;
  class : value;
  constructorMethod : value;
  factoryClass : value;
  arguments : value;
  calls : value;
  properties : value;
  tags : value;
  isSingleton : value;
  isObject : value;
  isFunction : value;
  scope : value;
  isPublic : value;
  isSynthetic : value;
  isAbstract : value;
  configurator : value
}.

(** [new Definition()] *)
Definition new : t :=
  {| file := VNull; namespace := VNull; rootDirectory := VNull; class := VNull;
     constructorMethod := VNull; factoryClass := VNull;
     arguments := VArr []; calls := VArr []; properties := VObj [];
     tags := VArr []; isSingleton := VBool false; isObject := VBool false;
     isFunction := VBool false;
     scope := VNull; isPublic := VBool true; isSynthetic := VBool false;
     isAbstract := VBool false; configurator := VNull |}.

Definition set_calls (d : t) (c : value) : t :=
  {| file := file d; namespace := namespace d; rootDirectory := rootDirectory d;
     class := class d; constructorMethod := constructorMethod d;
     factoryClass := factoryClass d; arguments := arguments d; calls := c;
     properties := properties d; tags := tags d; isSingleton := isSingleton d;
     isObject := isObject d; isFunction := isFunction d; scope := scope d;
     isPublic := isPublic d; isSynthetic := isSynthetic d;
     isAbstract := isAbstract d; configurator := configurator d |}.

(** What a method of the entity throws. *)
Inductive exception : Type :=
| InvalidArgument (message : string)
| TypeError.

(** How a method ends: it returns [this], or throws. *)
Inductive completion : Type :=
| Return
| Throw (e : exception).

(** [addMethodCall(method, arguments)]: the entity as the call leaves it,
    and how the call ended.  [this.calls.push] is a [TypeError] when
    [this.calls] is not an array. *)
Definition addMethodCall (method args : value) (this : t) : t * completion :=
  if negb (truthy method) || negb (is_string method) then
    (this, Throw (InvalidArgument
       "Container.Definition.addMethodCall: Method name must be a valid string."))
  else
    match calls this with
    | VArr l => (set_calls this (VArr (l ++ [VArr [method; args]])), Return)
    | _ => (this, Throw TypeError)
    end.

(** [v[i]] for [i] = 0 or 1, on an element of the array given to
    [setMethodCalls]; reading an index of [null] or [undefined] is a
    [TypeError]. *)
Definition index (v : value) (i : nat) : option value :=
  match v with
  | VUndefined | VNull => None
  | VArr l => Some (nth i l VUndefined)
  | VStr s =>
      Some match String.get i s with
           | Some c => VStr (String c EmptyString)
           | None => VUndefined
           end
  | VObj fields =>
      Some match List.find (fun kv => String.eqb (fst kv) (if Nat.eqb i 0 then "0" else "1")) fields with
           | Some kv => snd kv
           | None => VUndefined
           end
  | VBool _ | VNum _ => Some VUndefined
  end.

(** [setMethodCalls(calls)], over the elements of the array [calls]. *)
Fixpoint setMethodCalls (calls : list value) (this : t) : t * completion :=
  match calls with
  | [] => (this, Return)
  | c :: rest =>
      match index c 0, index c 1 with
      | Some method, Some args =>
          match addMethodCall method args this with
          | (this', Return) => setMethodCalls rest this'
          | thrown => thrown
          end
      | _, _ => (this, Throw TypeError)
      end
  end.

(** What a method that answers hands back: its answer, or what it
    throws. *)
Inductive result (A : Type) : Type :=
| Answer (a : A)
| Raise (e : exception).

Arguments Answer {A} a.
Arguments Raise {A} e.

(** The values [v[i]] that [for (i in v)] reads, in the order of
    enumeration: the elements of an array, the values of an object, the
    characters of a string; nothing for any other value. *)
Definition enumerate (v : value) : list value :=
  match v with
  | VArr l => l
  | VObj fields => List.map snd fields
  | VStr s => List.map (fun c => VStr (String c EmptyString)) (list_ascii_of_string s)
  | _ => []
  end.

(** [v === s] for a string [s]. *)
Definition is_the_string (v : value) (s : string) : bool :=
  match v with
  | VStr s' => String.eqb s' s
  | _ => false
  end.

(** The loop of [hasMethodCall] over the call entries left to visit. *)
Fixpoint hasMethodCall_from (entries : list value) (method : string) : result bool :=
  match entries with
  | [] => Answer false
  | entry :: rest =>
      match index entry 0 with
      | None => Raise TypeError
      | Some name =>
          if is_the_string name method then Answer true
          else hasMethodCall_from rest method
      end
  end.

(** [hasMethodCall(method)], for a string [method]. *)
Definition hasMethodCall (method : string) (this : t) : result bool :=
  hasMethodCall_from (enumerate (calls this)) method.

(** [v.name]: a [TypeError] on [null] and [undefined], [undefined] on a
    value without such a property. *)
Definition name_of (v : value) : option value :=
  match v with
  | VUndefined | VNull => None
  | VObj fields =>
      Some match List.find (fun kv => String.eqb (fst kv) "name") fields with
           | Some kv => snd kv
           | None => VUndefined
           end
  | _ => Some VUndefined
  end.

(** The loop of [getTag] over the tags left to visit. *)
Fixpoint getTag_from (entries : list value) (name : string) : result value :=
  match entries with
  | [] => Answer VNull
  | tag :: rest =>
      match name_of tag with
      | None => Raise TypeError
      | Some n => if is_the_string n name then Answer tag else getTag_from rest name
      end
  end.

(** [getTag(name)], for a string [name]. *)
Definition getTag (name : string) (this : t) : result value :=
  getTag_from (enumerate (tags this)) name.

(** The loop of [hasTag] over the tags left to visit. *)
Fixpoint hasTag_from (entries : list value) (name : string) : result bool :=
  match entries with
  | [] => Answer false
  | tag :: rest =>
      match name_of tag with
      | None => Raise TypeError
      | Some n => if is_the_string n name then Answer true else hasTag_from rest name
      end
  end.

(** [hasTag(name)], for a string [name]. *)
Definition hasTag (name : string) (this : t) : result bool :=
  hasTag_from (enumerate (tags this)) name.

End Def.

(** ** The Definition Normalizer *)

(** [buildDefinition(config, rootDirectory, namespace)] *)
Definition buildDefinition (config : RawServiceRecord) (rootDirectory namespace : string)
  : Def.t :=
  let definition := Def.new in
  {| Def.file := get (raw_class config);
     Def.namespace := VStr namespace;
     Def.rootDirectory := VStr rootDirectory;
     Def.class := Def.class definition;
     Def.constructorMethod := get (raw_constructorMethod config);
     Def.factoryClass := Def.factoryClass definition;
     Def.arguments := get (raw_arguments config);
     Def.calls := get (raw_calls config);
     Def.properties := get (raw_properties config);
     Def.tags := if truthy (get (raw_tags config)) then get (raw_tags config) else VArr [];
     Def.isSingleton :=
       match raw_isSingleton config with
       | Some j => of_json j
       | None => VBool true
       end;
     Def.isObject := get (raw_isObject config);
     Def.isFunction := get (raw_isFunction config);
     Def.scope := Def.scope definition;
     Def.isPublic := Def.isPublic definition;
     Def.isSynthetic := Def.isSynthetic definition;
     Def.isAbstract := Def.isAbstract definition;
     Def.configurator := Def.configurator definition |}.

(** ** The container *)

Module Container.

(** One call received by the container. *)
Inductive call : Type :=
| SetParameter (name : string) (v : json)
| SetService (name : string) (definition : Def.t).

(** Modelled from the spec: the container ([lib/Container.js], the sink of
    section 6) is not among the sources.  It accepts [setParameter(name,
    value)] and [set(name, definition)], the later call for a name
    replacing the earlier one; [journal] keeps the calls in the order they
    were received. *)
Record t : Type := mk {
  parameters : gmap string json;
  definitions : gmap string Def.t;
  journal : list call
}.

(** Modelled from the spec: [setParameter(name, value)] registers the
    value under the name, in place of an earlier one. *)
Definition setParameter (name : string) (v : json) (c : t) : t :=
  {| parameters := <[name := v]> (parameters c);
     definitions := definitions c;
     journal := journal c ++ [SetParameter name v] |}.

(** Modelled from the spec: [set(name, definition)] registers the
    definition under the name, in place of an earlier one. *)
Definition set (name : string) (d : Def.t) (c : t) : t :=
  {| parameters := parameters c;
     definitions := <[name := d]> (definitions c);
     journal := journal c ++ [SetService name d] |}.

(** Modelled from the spec: [new Container(require, rootdirectory)] holds
    no parameter and no definition. *)
Definition new (rootdirectory : string) : t :=
  {| parameters := ∅; definitions := ∅; journal := [] |}.

End Container.

Abbreviation Container := Container.t.

(** [makeEmptyContainer(rootdirectory)] *)
Definition makeEmptyContainer (rootdirectory : string) : Container :=
  Container.new rootdirectory.

(** ** The Import and Namespace Resolver *)

Module Path.

(** [s] ends with [suffix]. *)
Definition ends_with (suffix s : string) : bool :=
  (String.length suffix <=? String.length s)%nat
  && String.eqb
       (String.substring (String.length s - String.length suffix) (String.length suffix) s)
       suffix.

Fixpoint no_slash (s : string) : bool :=
  match s with
  | EmptyString => true
  | String c rest => negb (Ascii.eqb c "/"%char) && no_slash rest
  end.

(** [s.replace(/^\.\.\//, './../')] *)
Definition replace_leading_dotdot (s : string) : string :=
  if String.prefix "../" s
  then "./../" +:+ String.substring 3 (String.length s - 3) s
  else s.

(** [s.replace('./', '/')]: the first occurrence only. *)
Definition replace_first_dot_slash (s : string) : string :=
  match String.index 0 "./" s with
  | Some i =>
      String.substring 0 i s +:+ "/"
      +:+ String.substring (i + 2) (String.length s - (i + 2)) s
  | None => s
  end.

(** [s.replace(/\/[^/]+\.json$/, '')]: the match starts at a [/] that is
    followed, up to the end, by at least one character other than [/] and
    then [.json]. *)
Fixpoint remove_json_basename (s : string) : string :=
  match s with
  | EmptyString => EmptyString
  | String c rest =>
      if Ascii.eqb c "/"%char && no_slash rest && ends_with ".json" rest
         && (5 <? String.length rest)%nat
      then EmptyString
      else String c (remove_json_basename rest)
  end.

End Path.

(** What stops a resolution. *)
Inductive error : Type :=
| LoadError (path : string).

(** How a call of [parseFile] ends: it returns, it throws, or the model
    has used up its fuel. *)
Inductive outcome : Type :=
| Returned
| Threw (e : error)
| OutOfFuel.

(** [namespace || ''] *)
Definition or_empty (namespace : option string) : string :=
  match namespace with
  | Some s => s
  | None => EmptyString
  end.

(** The namespace in force after the [if (config.namespace)] statement. *)
Definition effectiveNamespace (inherited : option string) (declared : option string)
  : string :=
  let namespace := or_empty inherited in
  match declared with
  | Some ns =>
      if nonempty ns then
        if nonempty namespace then namespace +:+ "." +:+ ns else ns
      else namespace
  | None => namespace
  end.

(** [(namespace) ? namespace + '.' : ''] *)
Definition modifiedNs (namespace : string) : string :=
  if nonempty namespace then namespace +:+ "." else EmptyString.

(** The descriptor [parseFile] builds for one entry of [imports]. *)
Definition importFile (fileinfo : FileDescriptor) (import : string) : FileDescriptor :=
  let file := Path.replace_leading_dotdot import in
  let file := dir fileinfo +:+ Path.replace_first_dot_slash file in
  let path := Path.remove_json_basename file in
  {| file := file; dir := path; level := level fileinfo;
     isEnvFile := None; isParamFile := None; config := None |}.

(** [for (i in config.parameters) container.setParameter(modifiedNs + i, ...)] *)
Definition addParameters (prefix : string) (params : list (string * json))
    (container : Container) : Container :=
  fold_left (fun c kv => Container.setParameter (prefix +:+ fst kv) (snd kv) c) params container.

(** [for (i in serviceConfigs) container.set(modifiedNs + i, buildDefinition(...))] *)
Definition addServices (prefix rootDirectory namespace : string)
    (serviceConfigs : list (string * RawServiceRecord)) (container : Container)
  : Container :=
  fold_left
    (fun c kv => Container.set (prefix +:+ fst kv) (buildDefinition (snd kv) rootDirectory namespace) c)
    serviceConfigs container.

Section Resolver.

(** The configuration loader: [None] when the file is missing or cannot be
    parsed, in which case [require] throws. *)
Variable require : string -> option ConfigRecord.

(** The loop over [config.imports], given [parseFile] for the imports. *)
Fixpoint for_imports
    (parseFile : FileDescriptor -> Container -> option string -> Container * outcome)
    (fileinfo : FileDescriptor) (namespace : string) (imports : list string)
    (container : Container) {struct imports} : Container * outcome :=
  match imports with
  | [] => (container, Returned)
  | import :: rest =>
      match parseFile (importFile fileinfo import) container (Some namespace) with
      | (container, Returned) => for_imports parseFile fileinfo namespace rest container
      | stopped => stopped
      end
  end.

(** [parseFile(fileinfo, container, namespace)]: the container as the call
    leaves it, and how the call ended.  Imports may form a cycle, in which
    case the recursion does not end; [fuel] bounds its depth. *)
Fixpoint parseFile (fuel : nat) (fileinfo : FileDescriptor) (container : Container)
    (namespace : option string) {struct fuel} : Container * outcome :=
  match fuel with
  | O => (container, OutOfFuel)
  | S fuel =>
      match (match config fileinfo with
             | Some c => Some c
             | None => require (file fileinfo)
             end) with
      | None => (container, Threw (LoadError (file fileinfo)))
      | Some config =>
          let namespace := effectiveNamespace namespace (Config.namespace config) in
          let modifiedNs := modifiedNs namespace in
          match for_imports (parseFile fuel) fileinfo namespace (Config.imports config) container with
          | (container, Returned) =>
              let container := addParameters modifiedNs (Config.parameters config) container in
              if negb (flag (isParamFile fileinfo)) then
                (addServices modifiedNs (dir fileinfo) namespace (Config.services config) container,
                 Returned)
              else (container, Returned)
          | stopped => stopped
          end
      end
  end.

(** The loop of [buildContainer] over the sorted files. *)
Fixpoint for_files (fuel : nat) (files : list FileDescriptor) (container : Container)
  : Container * outcome :=
  match files with
  | [] => (container, Returned)
  | f :: rest =>
      match parseFile fuel f container None with
      | (container, Returned) => for_files fuel rest container
      | stopped => stopped
      end
  end.

Variable array_sort :
  (FileDescriptor -> FileDescriptor -> Z) -> list FileDescriptor -> list FileDescriptor.

(** [this.options = options || this.options] *)
Definition set_options (this : Builder) (given : option Options) : Builder :=
  {| options := match given with
                | Some o => o
                | None => options this
                end |}.

(** The files [buildContainer] finds under the root directory, which holds
    the entries [fs]. *)
Definition discovered (this : Builder) (fs : list (string * node)) (rootdirectory : string)
  : list FileDescriptor :=
  findServiceJsonFiles this (Directory fs) rootdirectory None.

(** [buildContainer(rootdirectory, options)]: the builder as the call
    leaves it, the container, and how the call ended; the container is
    returned to the caller when the outcome is [Returned]. *)
Definition buildContainer (fuel : nat) (this : Builder) (fs : list (string * node))
    (rootdirectory : string) (options : option Options)
  : Builder * (Container * outcome) :=
  let this := set_options this options in
  let container := makeEmptyContainer rootdirectory in
  let files := discovered this fs rootdirectory in
  let files := sortFilesByHierarchy array_sort files in
  (this, for_files fuel files container).

End Resolver.

(** ** Notions the statements use *)

(** What one entry of the directory [absolutePath] adds to the files
    found. *)
Definition visit (this : Builder) (absolutePath : string) (level : option number)
    (entry : string * node) : list FileDescriptor :=
  let filepath := absolutePath +:+ "/" +:+ fst entry in
  match snd entry with
  | Directory _ =>
      if enters this filepath
      then findServiceJsonFiles this (snd entry) filepath (Some (plus_one level))
      else []
  | File => classify this filepath absolutePath level
  | Other => []
  end.

(** The level after [k] descents from a call made with [level]. *)
Fixpoint bump (k : nat) (level : option number) : option number :=
  match k with
  | O => level
  | S k' => bump k' (Some (plus_one level))
  end.

(** The environment name of the builder, when it has one, is a plain
    name. *)
Definition env_plain (this : Builder) : Prop :=
  match env_name (env (options this)) with
  | Some name => Pattern.plain name = true
  | None => True
  end.

(** Every name listed in the tree is made of ASCII characters. *)
Fixpoint ascii_tree (n : node) : bool :=
  match n with
  | Directory entries =>
      forallb (fun e => let '(name, sub) := e in
                        Pattern.ascii_only name && ascii_tree sub) entries
  | _ => true
  end.

(** The fields of a definition other than [calls]. *)
Definition other_fields (d : Def.t) :=
  (Def.file d, Def.namespace d, Def.rootDirectory d, Def.class d,
   Def.constructorMethod d, Def.factoryClass d, Def.arguments d, Def.properties d,
   Def.tags d, Def.isSingleton d, Def.isObject d, Def.isFunction d, Def.scope d,
   Def.isPublic d, Def.isSynthetic d, Def.isAbstract d, Def.configurator d).

(** Below the directory [n], the subdirectories [names], each an entry of
    the one before, lead to a directory that lists the file [name]. *)
Fixpoint leads_to (names : list string) (n : node) (name : string) : Prop :=
  match names with
  | [] => exists entries, n = Directory entries /\ In (name, File) entries
  | d :: rest =>
      exists entries sub,
        n = Directory entries /\ In (d, sub) entries /\ leads_to rest sub name
  end.

(** The path reached from [path] through the directories [names]. *)
Definition descend (path : string) (names : list string) : string :=
  fold_left (fun acc name => acc +:+ "/" +:+ name) names path.

(** The three kinds of descriptor, as the loop of [sortFilesByHierarchy]
    tells them apart. *)
Definition is_EnvironmentService (f : FileDescriptor) : bool := flag (isEnvFile f).
Definition is_Parameter (f : FileDescriptor) : bool :=
  negb (flag (isEnvFile f)) && flag (isParamFile f).
Definition is_Service (f : FileDescriptor) : bool :=
  negb (flag (isEnvFile f)) && negb (flag (isParamFile f)).

(** The depth a descriptor carries, when its level is an integer. *)
Definition has_depth (f : FileDescriptor) : Prop :=
  exists z, level f = Some (Int z).

Definition depth_of (f : FileDescriptor) : Z :=
  match level f with
  | Some (Int z) => z
  | _ => 0%Z
  end.

(** The configuration record [parseFile] works on. *)
Definition load (require : string -> option ConfigRecord) (fileinfo : FileDescriptor)
  : option ConfigRecord :=
  match config fileinfo with
  | Some c => Some c
  | None => require (file fileinfo)
  end.

(** The calls [parseFile] makes for the parameters and for the services
    of the record itself. *)
Definition own_parameters (prefix : string) (params : list (string * json))
  : list Container.call :=
  List.map (fun kv => Container.SetParameter (prefix +:+ fst kv) (snd kv)) params.

Definition own_services (prefix rootDirectory namespace : string)
    (serviceConfigs : list (string * RawServiceRecord)) : list Container.call :=
  List.map
    (fun kv => Container.SetService (prefix +:+ fst kv)
                 (buildDefinition (snd kv) rootDirectory namespace))
    serviceConfigs.

(** The imports are resolved one after the other, each from the container
    the one before left, the [k]-th adding the calls [Js !! k] to the
    journal, and [last] is the container after the last one. *)
Fixpoint resolved_in_order
    (parse : FileDescriptor -> Container -> option string -> Container * outcome)
    (fileinfo : FileDescriptor) (namespace : string) (imports : list string)
    (container : Container) (Js : list (list Container.call)) (last : Container) : Prop :=
  match imports, Js with
  | [], [] => last = container
  | import :: rest, J :: Js' =>
      exists next,
        parse (importFile fileinfo import) container (Some namespace) = (next, Returned)
        /\ Container.journal next = Container.journal container ++ J
        /\ resolved_in_order parse fileinfo namespace rest next Js' last
  | _, _ => False
  end.

(** A call of [parse] only adds to the journal of the container. *)
Definition grows (parse : FileDescriptor -> Container -> option string -> Container * outcome)
  : Prop :=
  forall fd c inherited,
    exists J, Container.journal (fst (parse fd c inherited)) = Container.journal c ++ J.

(** The name a call registers something under. *)
Definition registered_name (c : Container.call) : string :=
  match c with
  | Container.SetParameter name _ => name
  | Container.SetService name _ => name
  end.

(** [s] starts with [p]. *)
Definition starts_with (p s : string) : Prop := exists rest, s = p +:+ rest.

(** A call made under the namespace [ns]: the name it registers starts
    with the prefix of [ns], and a definition is registered under the
    prefix of the namespace it records. *)
Definition made_under (prefix : string) (c : Container.call) : Prop :=
  starts_with prefix (registered_name c)
  /\ match c with
     | Container.SetParameter _ _ => True
     | Container.SetService name d =>
         exists ns key, Def.namespace d = VStr ns /\ name = modifiedNs ns +:+ key
     end.

(** The place of a descriptor's group in the order of
    [sortFilesByHierarchy]. *)
Definition group_rank (f : FileDescriptor) : nat :=
  if flag (isEnvFile f) then 1 else if flag (isParamFile f) then 2 else 0.

(** A descriptor whose record can be loaded, and so can those of its
    imports, and of theirs, down to records without imports. *)
Inductive loadable (require : string -> option ConfigRecord) : FileDescriptor -> Prop :=
| loadable_intro fileinfo cfg :
    load require fileinfo = Some cfg ->
    (forall import, In import (Config.imports cfg) ->
                    loadable require (importFile fileinfo import)) ->
    loadable require fileinfo.

(** A method name [addMethodCall] accepts: a string that is not empty. *)
Definition valid_method (method : value) : Prop :=
  exists s, method = VStr s /\ s <> EmptyString.

(** The pair [addMethodCall] pushes. *)
Definition pair_of (method args : value) : value := VArr [method; args].

(** ** An engine's sort *)

Module Engine.

Section InsertionSort.

Context {A : Type}.
Variable comparefn : A -> A -> Z.

(** The inner loop of an insertion sort driven by the sign of the
    comparison: [element] moves towards the front past every [tmp] with
    [comparefn(tmp, element) > 0].  [before] is the sorted part, from its
    last element to its first. *)
Fixpoint insert (element : A) (before : list A) : list A :=
  match before with
  | [] => [element]
  | tmp :: rest =>
      if (0 <? comparefn tmp element)%Z
      then tmp :: insert element rest
      else element :: before
  end.

(** A stable insertion sort, as an engine runs it on a short array. *)
Definition InsertionSort (a : list A) : list A :=
  rev (fold_left (fun before element => insert element before) a []).

(** The inner loop of an insertion sort driven by the negative answers of
    the comparison: [element] moves towards the front past every [tmp] with
    [comparefn(element, tmp) < 0]. *)
Fixpoint insert_if_less (element : A) (before : list A) : list A :=
  match before with
  | [] => [element]
  | tmp :: rest =>
      if (comparefn element tmp <? 0)%Z
      then tmp :: insert_if_less element rest
      else element :: before
  end.

(** A stable insertion sort that acts on the negative answers. *)
Definition InsertionSort_by_less (a : list A) : list A :=
  rev (fold_left (fun before element => insert_if_less element before) a []).

End InsertionSort.

End Engine.

(** ** Concrete inputs *)

Module Examples.

Definition no_fields : RawServiceRecord :=
  mkRaw None None None None None None None None None.

(** A root directory that holds [services.json] and a subdirectory [sub]
    with a [services.json] of its own, listed in this order. *)
Definition two_levels : list (string * node) :=
  [("services.json", File); ("sub", Directory [("services.json", File)])].

Definition class_only (name : string) : RawServiceRecord :=
  mkRaw (Some (JStr name)) None None None None None None None None.

(** Both files set the parameter [x] and the service [svc]. *)
Definition two_levels_require (path : string) : option ConfigRecord :=
  if String.eqb path "/app/services.json" then
    Some (Config.mk None [] [("x", JNum 1)] [("svc", class_only "Root")])
  else if String.eqb path "/app/sub/services.json" then
    Some (Config.mk None [] [("x", JNum 2)] [("svc", class_only "Deep")])
  else None.

(** Descriptors of the three kinds, with integer levels. *)
Definition at_level (name : string) (z : Z) (isEnv isParam : bool) : FileDescriptor :=
  mkFile name "/app" (Some (Int z)) (Some isEnv) (Some isParam) None.

(** A file of the root directory, then a deeper one, both with their
    depth as level. *)
Definition shallow_then_deep : list FileDescriptor :=
  [at_level "/app/services.json" 0 false false;
   at_level "/app/sub/services.json" 1 false false].

Definition mixed : list FileDescriptor :=
  [at_level "p0" 0 false true; at_level "s0" 0 false false; at_level "e1" 1 true false;
   at_level "s2" 2 false false; at_level "e0" 0 true false; at_level "s1" 1 false false;
   at_level "p2" 2 false true].

(** A root directory with a [node_modules] directory that holds a
    [services.json]. *)
Definition with_node_modules : list (string * node) :=
  [("node_modules", Directory [("pkg", Directory [("services.json", File)])]);
   ("services.json", File);
   ("services_test.json", File)].

Definition env_test_only : Options :=
  {| env := EnvName "test"; ignoreNodeModulesDirectory := None |}.

Definition env_test_pruning : Options :=
  {| env := EnvName "test"; ignoreNodeModulesDirectory := Some true |}.

(** [/app/services.json] declares the namespace [a] and imports
    [./b.json], which declares the namespace [b] and the parameter [p]. *)
Definition a_imports_b (path : string) : option ConfigRecord :=
  if String.eqb path "/app/services.json" then
    Some (Config.mk (Some "a") ["./b.json"] [] [])
  else if String.eqb path "/app/b.json" then
    Some (Config.mk (Some "b") [] [("p", JNum 5)] [])
  else None.

Definition app_services : FileDescriptor :=
  mkFile "/app/services.json" "/app" None (Some false) (Some false) None.

(** A record that declares the empty namespace. *)
Definition empty_namespace : ConfigRecord :=
  Config.mk (Some "") [] [("p", JNum 5)] [].

(** [/app/parameters.json] holds a [services] field and imports
    [./extra.json], which defines the service [svc]. *)
Definition parameters_import (path : string) : option ConfigRecord :=
  if String.eqb path "/app/parameters.json" then
    Some (Config.mk None ["./extra.json"] [("x", JNum 1)] [("own", no_fields)])
  else if String.eqb path "/app/extra.json" then
    Some (Config.mk None [] [] [("svc", no_fields)])
  else None.

Definition app_parameters : FileDescriptor :=
  mkFile "/app/parameters.json" "/app" None (Some false) (Some true) None.

(** [/app/parameters.json] holds a [services] field and no import. *)
Definition parameters_alone (path : string) : option ConfigRecord :=
  if String.eqb path "/app/parameters.json" then
    Some (Config.mk (Some "db") [] [("host", JStr "localhost")] [("own", no_fields)])
  else None.

(** A descriptor that carries its record, which declares the empty
    namespace. *)
Definition preloaded : FileDescriptor :=
  mkFile "/app/services.json" "/app" None None None (Some empty_namespace).

(** [/app/services.json] sets [x] and [svc] and imports two files that
    set them too. *)
Definition overriding (path : string) : option ConfigRecord :=
  if String.eqb path "/app/services.json" then
    Some (Config.mk None ["./one.json"; "./two.json"] [("x", JNum 0)] [("svc", no_fields)])
  else if String.eqb path "/app/one.json" then
    Some (Config.mk None [] [("x", JNum 1)] [("svc", no_fields)])
  else if String.eqb path "/app/two.json" then
    Some (Config.mk None [] [("x", JNum 2); ("y", JNum 3)] [])
  else None.

End Examples.

(** * Properties *)

(** ** Induction over the file system *)

Lemma node_induction (P : node -> Prop) :
  P File -> P Other ->
  (forall entries, Forall (fun e => P (snd e)) entries -> P (Directory entries)) ->
  forall n, P n.
Proof.
  intros HF HO HD.
  fix IH 1.
  intros [ | | entries].
  - exact HF.
  - exact HO.
  - apply HD.
    induction entries as [ | [name stat] rest IHrest].
    + constructor.
    + constructor; [exact (IH stat) | exact IHrest].
Qed.

(** ** The File Discoverer *)

Lemma findServiceJsonFiles_Directory this files absolutePath level :
  findServiceJsonFiles this (Directory files) absolutePath level
  = flat_map (visit this absolutePath level) files.
Proof.
  cbn [findServiceJsonFiles].
  match goal with
  | |- ?loop files [] = _ =>
      assert (H : forall fs acc, loop fs acc = acc ++ flat_map (visit this absolutePath level) fs)
  end.
  { induction fs as [ | [name stat] rest IH]; intros acc.
    - cbn. now rewrite app_nil_r.
    - cbn [flat_map]. rewrite app_assoc, <- IH.
      unfold visit; cbn [fst snd].
      destruct stat; cbn; try reflexivity.
      + now rewrite app_nil_r.
      + destruct (enters this _); [reflexivity | now rewrite app_nil_r]. }
  apply H.
Qed.

Lemma classify_spec this filepath absolutePath lvl fd :
  In fd (classify this filepath absolutePath lvl) ->
  file fd = filepath /\ dir fd = absolutePath /\ level fd = lvl
  /\ config fd = None
  /\ (isEnvFile fd = Some false
      \/ (isEnvFile fd = Some true /\ env_name (env (options this)) <> None)).
Proof.
  unfold classify, envPattern.
  destruct (Pattern.test pattern filepath).
  { intros [<- | []]; cbn; auto 10. }
  destruct (Pattern.test parameterPattern filepath).
  { intros [<- | []]; cbn; auto 10. }
  destruct (env_name (env (options this))) as [name | ]; [ | intros []].
  destruct (Pattern.test _ filepath); [ | intros []].
  intros [<- | []]; cbn.
  repeat split; try reflexivity. right. split; [reflexivity | discriminate].
Qed.

Lemma bump_succ k lvl : bump (S k) lvl = Some (plus_one (bump k lvl)).
Proof.
  revert lvl. induction k as [ | k IH]; intros lvl.
  - reflexivity.
  - change (bump (S (S k)) lvl) with (bump (S k) (Some (plus_one lvl))).
    now rewrite IH.
Qed.

Lemma bump_undefined k : bump k None = match k with O => None | S _ => Some NaN end.
Proof.
  induction k as [ | k IH]; [reflexivity | ].
  rewrite bump_succ, IH. now destruct k.
Qed.

(** A file found by the walk lies in a directory reached from the starting
    directory through some subdirectories, and carries the level of the
    starting call after one [+ 1] for each of them. *)
Lemma findServiceJsonFiles_level this n :
  forall absolutePath lvl fd,
    In fd (findServiceJsonFiles this n absolutePath lvl) ->
    exists names,
      dir fd = descend absolutePath names /\ level fd = bump (List.length names) lvl.
Proof.
  induction n as [ | | entries IH] using node_induction; intros absolutePath lvl fd Hin;
    try (now destruct Hin).
  rewrite findServiceJsonFiles_Directory in Hin.
  apply in_flat_map in Hin as [[name stat] [Hentry Hin]].
  rewrite List.Forall_forall in IH. specialize (IH _ Hentry). cbn [snd] in IH.
  unfold visit in Hin; cbn [fst snd] in Hin.
  destruct stat as [ | | sub].
  - apply classify_spec in Hin as (_ & Hdir & Hlevel & _).
    exists []. now split.
  - destruct Hin.
  - destruct (enters this _); [ | destruct Hin].
    apply IH in Hin as (names & Hdir & Hlevel).
    exists (name :: names). split; [exact Hdir | exact Hlevel].
Qed.

(** With [ignoreNodeModulesDirectory] set, the walk enters no directory
    whose path contains [node_modules]: a file is found in the starting
    directory or in a directory whose path does not contain it. *)
Lemma findServiceJsonFiles_prunes this n :
  flag (ignoreNodeModulesDirectory (options this)) = true ->
  forall absolutePath lvl fd,
    In fd (findServiceJsonFiles this n absolutePath lvl) ->
    dir fd = absolutePath \/ indexOf_is_minus_one (dir fd) "node_modules" = true.
Proof.
  intros Hflag.
  induction n as [ | | entries IH] using node_induction; intros absolutePath lvl fd Hin;
    try (now destruct Hin).
  rewrite findServiceJsonFiles_Directory in Hin.
  apply in_flat_map in Hin as [[name stat] [Hentry Hin]].
  rewrite List.Forall_forall in IH. specialize (IH _ Hentry). cbn [snd] in IH.
  unfold visit in Hin; cbn [fst snd] in Hin.
  destruct stat as [ | | sub].
  - apply classify_spec in Hin as (_ & Hdir & _). now left.
  - destruct Hin.
  - destruct (enters this _) eqn:Henters; [ | destruct Hin].
    unfold enters in Henters. rewrite Hflag in Henters. cbn in Henters.
    right. apply IH in Hin as [-> | Hin]; [exact Henters | exact Hin].
Qed.

(** Without a truthy [env], no file is taken for an environment file. *)
Lemma findServiceJsonFiles_no_env this n :
  env_name (env (options this)) = None ->
  forall absolutePath lvl fd,
    In fd (findServiceJsonFiles this n absolutePath lvl) -> isEnvFile fd = Some false.
Proof.
  intros Henv.
  induction n as [ | | entries IH] using node_induction; intros absolutePath lvl fd Hin;
    try (now destruct Hin).
  rewrite findServiceJsonFiles_Directory in Hin.
  apply in_flat_map in Hin as [[name stat] [Hentry Hin]].
  rewrite List.Forall_forall in IH. specialize (IH _ Hentry). cbn [snd] in IH.
  unfold visit in Hin; cbn [fst snd] in Hin.
  destruct stat as [ | | sub].
  - apply classify_spec in Hin as (_ & _ & _ & _ & [H | [_ H]]); [exact H | ].
    now elim H.
  - destruct Hin.
  - destruct (enters this _); [ | destruct Hin]. now apply IH in Hin.
Qed.

(** The walk reads two things of the options: whether [env] names an
    environment, and whether [ignoreNodeModulesDirectory] is truthy. *)
Lemma findServiceJsonFiles_options this this' n :
  env_name (env (options this)) = env_name (env (options this')) ->
  flag (ignoreNodeModulesDirectory (options this))
  = flag (ignoreNodeModulesDirectory (options this')) ->
  forall absolutePath lvl,
    findServiceJsonFiles this n absolutePath lvl
    = findServiceJsonFiles this' n absolutePath lvl.
Proof.
  intros Henv Hflag.
  induction n as [ | | entries IH] using node_induction; intros absolutePath lvl;
    try reflexivity.
  rewrite !findServiceJsonFiles_Directory.
  induction IH as [ | [name stat] rest Hstat _ IHrest]; [reflexivity | ].
  cbn [flat_map]. rewrite IHrest. f_equal.
  unfold visit; cbn [fst snd] in *.
  destruct stat as [ | | sub]; try reflexivity.
  - unfold classify, envPattern. now rewrite Henv.
  - unfold enters. rewrite Hflag.
    destruct (_ || _); [apply Hstat | reflexivity].
Qed.

(** ** The levels of a build *)

Lemma discovered_level this fs rootdirectory fd :
  In fd (discovered this fs rootdirectory) ->
  exists names,
    dir fd = descend rootdirectory names
    /\ level fd = match names with
                  | [] => None
                  | _ :: _ => Some NaN
                  end.
Proof.
  intros Hin. apply findServiceJsonFiles_level in Hin as (names & Hdir & Hlevel).
  exists names. split; [exact Hdir | ].
  rewrite Hlevel, bump_undefined. now destruct names.
Qed.

(** C2 (the code is at fault): [buildContainer] starts the walk without a
    level, so no file it finds carries a depth.  A file of the root
    directory has the level [undefined] and a file of any directory below
    has the level [NaN], where the claim has 0 and one more per
    directory. *)
Theorem buildContainer_levels_are_no_depths this fs rootdirectory fd :
  In fd (discovered this fs rootdirectory) ->
  (exists names,
     dir fd = descend rootdirectory names
     /\ level fd = match names with
                   | [] => None
                   | _ :: _ => Some NaN
                   end)
  /\ ~ has_depth fd.
Proof.
  intros Hin. destruct (discovered_level _ _ _ _ Hin) as (names & Hdir & Hlevel).
  split; [now exists names | ].
  intros [z Hz]. rewrite Hz in Hlevel. now destruct names.
Qed.

Lemma buildContainer_levels_are_no_depths_witness :
  In (mkFile "/app/sub/services.json" "/app/sub" (Some NaN) (Some false) (Some false) None)
     (discovered new_Builder Examples.two_levels "/app")
  /\ (exists names,
        "/app/sub" = descend "/app" names
        /\ Some NaN = match names with
                      | [] => None
                      | _ :: _ => Some NaN
                      end)
  /\ ~ has_depth
        (mkFile "/app/sub/services.json" "/app/sub" (Some NaN) (Some false) (Some false)
           None).
Proof.
  split.
  - vm_compute. auto.
  - apply (buildContainer_levels_are_no_depths new_Builder Examples.two_levels "/app"
             (mkFile "/app/sub/services.json" "/app/sub" (Some NaN) (Some false) (Some false) None)).
    vm_compute. auto.
Defined.

(** The files of the two-level tree, as the build finds them. *)
Example two_levels_discovered :
  discovered new_Builder Examples.two_levels "/app"
  = [mkFile "/app/services.json" "/app" None (Some false) (Some false) None;
     mkFile "/app/sub/services.json" "/app/sub" (Some NaN) (Some false) (Some false) None].
Proof. reflexivity. Qed.

(** ** The options of a build *)

Lemma buildContainer_unfold require array_sort fuel this fs rootdirectory given :
  buildContainer require array_sort fuel this fs rootdirectory given
  = (set_options this given,
     for_files require fuel
       (sortFilesByHierarchy array_sort
          (discovered (set_options this given) fs rootdirectory))
       (makeEmptyContainer rootdirectory)).
Proof. reflexivity. Qed.

(** C3 (as stated, refuted): with the options [{env: "test"}] the walk
    enters [node_modules]; the default [true] of the omitted
    [ignoreNodeModulesDirectory] does not apply. *)
Lemma omitted_ignoreNodeModulesDirectory_is_not_defaulted :
  ~ (forall fd,
       In fd (discovered (set_options new_Builder (Some Examples.env_test_only))
                Examples.with_node_modules "/app") ->
       dir fd = "/app" \/ indexOf_is_minus_one (dir fd) "node_modules" = true).
Proof.
  intros H.
  specialize (H (mkFile "/app/node_modules/pkg/services.json" "/app/node_modules/pkg"
                   (Some NaN) (Some false) (Some false) None)).
  destruct H as [H | H]; [vm_compute; auto | discriminate H | discriminate H].
Qed.

(** C3 (amended): a build without options on a fresh builder runs with the
    defaults, under which no directory whose path contains [node_modules]
    is entered and no environment file is matched.  A given options object
    replaces them as it is: an omitted [env] matches no environment file,
    and an omitted [ignoreNodeModulesDirectory] is the same as [false]:
    the walk enters every directory, whatever its path, and the files it
    finds in a subdirectory are among the files it returns. *)
Theorem buildContainer_options fs rootdirectory :
  (set_options new_Builder None = new_Builder
   /\ forall fd,
        In fd (discovered (set_options new_Builder None) fs rootdirectory) ->
        (dir fd = rootdirectory \/ indexOf_is_minus_one (dir fd) "node_modules" = true)
        /\ isEnvFile fd = Some false)
  /\ (forall this o, options (set_options this (Some o)) = o)
  /\ (forall this o fd,
        env o = EnvUndefined ->
        In fd (discovered (set_options this (Some o)) fs rootdirectory) ->
        isEnvFile fd = Some false)
  /\ (forall this o,
        ignoreNodeModulesDirectory o = None ->
        discovered (set_options this (Some o)) fs rootdirectory
        = discovered (mkBuilder (mkOptions (env o) (Some false))) fs rootdirectory)
  /\ (forall this o filepath,
        ignoreNodeModulesDirectory o = None ->
        enters (set_options this (Some o)) filepath = true)
  /\ (forall this o files absolutePath lvl name sub fd,
        ignoreNodeModulesDirectory o = None ->
        In (name, Directory sub) files ->
        In fd (findServiceJsonFiles (set_options this (Some o)) (Directory sub)
                 (absolutePath +:+ "/" +:+ name) (Some (plus_one lvl))) ->
        In fd (findServiceJsonFiles (set_options this (Some o)) (Directory files)
                 absolutePath lvl)).
Proof.
  assert (Henters : forall this o filepath,
             ignoreNodeModulesDirectory o = None ->
             enters (set_options this (Some o)) filepath = true).
  { intros this o filepath Hnone. unfold enters. cbn [set_options options].
    now rewrite Hnone. }
  split; [split | split; [ | split; [ | split; [ | split]]]].
  - reflexivity.
  - intros fd Hin. split.
    + now apply (findServiceJsonFiles_prunes new_Builder) in Hin.
    + now apply (findServiceJsonFiles_no_env new_Builder) in Hin.
  - reflexivity.
  - intros this o fd Henv Hin.
    apply findServiceJsonFiles_no_env in Hin; [exact Hin | ].
    cbn. now rewrite Henv.
  - intros this o Hnone. unfold discovered.
    apply findServiceJsonFiles_options; cbn; [reflexivity | now rewrite Hnone].
  - exact Henters.
  - intros this o files absolutePath lvl name sub fd Hnone Hentry Hin.
    rewrite findServiceJsonFiles_Directory. apply in_flat_map.
    exists (name, Directory sub). split; [exact Hentry | ].
    unfold visit. cbn [fst snd]. now rewrite (Henters this o _ Hnone).
Qed.

Lemma buildContainer_options_witness :
  In (mkFile "/app/node_modules/pkg/services.json" "/app/node_modules/pkg" (Some NaN)
        (Some false) (Some false) None)
     (findServiceJsonFiles (set_options new_Builder (Some Examples.env_test_only))
        (Directory Examples.with_node_modules) "/app" None).
Proof.
  apply (proj2 (proj2 (proj2 (proj2 (proj2
           (buildContainer_options Examples.with_node_modules "/app")))))
           new_Builder Examples.env_test_only Examples.with_node_modules "/app" None
           "node_modules" [("pkg", Directory [("services.json", File)])]
           (mkFile "/app/node_modules/pkg/services.json" "/app/node_modules/pkg" (Some NaN)
              (Some false) (Some false) None)
           eq_refl).
  - now left.
  - vm_compute. auto.
Defined.


(** After a build with [{env: "test"}], a build without options still
    enters [node_modules] and matches the files of [test], which a fresh
    builder does not. *)
Example options_outlive_the_build :
  let first :=
    buildContainer Examples.a_imports_b (@Engine.InsertionSort _) 0 new_Builder
      [] "/elsewhere" (Some Examples.env_test_only) in
  List.map file (discovered (set_options (fst first) None) Examples.with_node_modules "/app")
  = ["/app/node_modules/pkg/services.json"; "/app/services.json"; "/app/services_test.json"]
  /\ List.map file (discovered (set_options new_Builder None) Examples.with_node_modules "/app")
     = ["/app/services.json"].
Proof. split; reflexivity. Qed.

(** ** The engine's sort *)

Section InsertionSortFacts.

Context {A : Type}.
Variable comparefn : A -> A -> Z.

Lemma insert_permutation element before :
  Permutation (Engine.insert comparefn element before) (element :: before).
Proof.
  induction before as [ | tmp rest IH]; cbn.
  - reflexivity.
  - destruct (0 <? comparefn tmp element)%Z.
    + rewrite IH. apply perm_swap.
    + reflexivity.
Qed.

Lemma fold_insert_permutation a :
  forall before,
    Permutation
      (fold_left (fun before element => Engine.insert comparefn element before) a before)
      (a ++ before).
Proof.
  induction a as [ | x a IH]; intros before; cbn.
  - reflexivity.
  - rewrite IH, insert_permutation. symmetry. apply Permutation_middle.
Qed.

Lemma InsertionSort_permutation a :
  Permutation (Engine.InsertionSort comparefn a) a.
Proof.
  unfold Engine.InsertionSort.
  rewrite <- Permutation_rev, fold_insert_permutation. now rewrite app_nil_r.
Qed.

Lemma fold_insert_ties a :
  forall before,
    (forall x y, In x (a ++ before) -> In y (a ++ before) -> comparefn x y = 0%Z) ->
    fold_left (fun before element => Engine.insert comparefn element before) a before
    = rev a ++ before.
Proof.
  induction a as [ | x a IH]; intros before Hties; cbn.
  - reflexivity.
  - assert (Hins : Engine.insert comparefn x before = x :: before).
    { destruct before as [ | tmp rest]; [reflexivity | ].
      cbn. rewrite Hties; [reflexivity | | ].
      - apply in_or_app. right. now left.
      - now left. }
    rewrite Hins, IH.
    + now rewrite <- app_assoc.
    + intros u v Hu Hv. apply Hties.
      * apply in_app_or in Hu as [Hu | [<- | Hu]];
          [right | left | right]; auto using in_or_app.
      * apply in_app_or in Hv as [Hv | [<- | Hv]];
          [right | left | right]; auto using in_or_app.
Qed.

(** A sort that moves an element only past one the comparison puts after
    it leaves an array of ties as it is. *)
Lemma InsertionSort_ties a :
  (forall x y, In x a -> In y a -> comparefn x y = 0%Z) ->
  Engine.InsertionSort comparefn a = a.
Proof.
  intros Hties. unfold Engine.InsertionSort.
  rewrite fold_insert_ties.
  - now rewrite app_nil_r, rev_involutive.
  - now rewrite app_nil_r.
Qed.

End InsertionSortFacts.

(** ** The Hierarchy Sorter *)

Lemma fold_push_group files :
  forall g,
    fold_left push_group files g
    = mkGroups (envFiles g ++ List.filter is_EnvironmentService files)
               (nonEnvFiles g ++ List.filter is_Service files)
               (parameterFiles g ++ List.filter is_Parameter files).
Proof.
  induction files as [ | f files IH]; intros [e n p]; cbn [fold_left List.filter].
  - cbn. now rewrite !app_nil_r.
  - rewrite IH. unfold push_group, is_EnvironmentService, is_Service, is_Parameter.
    cbn [envFiles nonEnvFiles parameterFiles].
    destruct (flag (isEnvFile f)), (flag (isParamFile f)); cbn;
      now rewrite <- ?app_assoc.
Qed.

Lemma sortFilesByHierarchy_groups array_sort files :
  sortFilesByHierarchy array_sort files
  = array_sort (fun a b => ToNumber_bool (sortFunc a b)) (List.filter is_Service files)
    ++ array_sort (fun a b => ToNumber_bool (sortFunc a b))
         (List.filter is_EnvironmentService files)
    ++ List.filter is_Parameter files.
Proof.
  unfold sortFilesByHierarchy. rewrite fold_push_group. cbn. now rewrite <- app_assoc.
Qed.

Lemma three_groups_permutation files :
  Permutation
    (List.filter is_Service files ++ List.filter is_EnvironmentService files
     ++ List.filter is_Parameter files)
    files.
Proof.
  induction files as [ | f files IH]; [reflexivity | ].
  symmetry. symmetry in IH.
  cbn [List.filter]. unfold is_EnvironmentService, is_Service, is_Parameter in *.
  destruct (flag (isEnvFile f)), (flag (isParamFile f)); cbn [negb andb].
  - cbn [app]. now apply Permutation_cons_app.
  - cbn [app]. now apply Permutation_cons_app.
  - rewrite app_assoc. apply Permutation_cons_app. now rewrite <- app_assoc.
  - cbn. now constructor.
Qed.

(** X17: whatever permutation the engine's sort returns, the sorter returns
    the Service group as [sort] leaves it, then the EnvironmentService
    group as [sort] leaves it, then the Parameter group in the order of
    discovery, and the whole is a permutation of the files it was
    given. *)
Theorem sortFilesByHierarchy_reorders array_sort files :
  (forall comparefn a, Permutation (array_sort comparefn a) a) ->
  sortFilesByHierarchy array_sort files
  = array_sort (fun a b => ToNumber_bool (sortFunc a b)) (List.filter is_Service files)
    ++ array_sort (fun a b => ToNumber_bool (sortFunc a b))
         (List.filter is_EnvironmentService files)
    ++ List.filter is_Parameter files
  /\ Permutation (sortFilesByHierarchy array_sort files) files.
Proof.
  intros Hperm. split; [apply sortFilesByHierarchy_groups | ].
  rewrite sortFilesByHierarchy_groups, !Hperm. apply three_groups_permutation.
Qed.

Lemma sortFilesByHierarchy_reorders_witness :
  sortFilesByHierarchy (@Engine.InsertionSort _) Examples.mixed
  = Engine.InsertionSort (fun a b => ToNumber_bool (sortFunc a b))
      (List.filter is_Service Examples.mixed)
    ++ Engine.InsertionSort (fun a b => ToNumber_bool (sortFunc a b))
         (List.filter is_EnvironmentService Examples.mixed)
    ++ List.filter is_Parameter Examples.mixed
  /\ Permutation (sortFilesByHierarchy (@Engine.InsertionSort _) Examples.mixed)
       Examples.mixed.
Proof.
  exact (sortFilesByHierarchy_reorders (@Engine.InsertionSort _) Examples.mixed
           (fun comparefn a => InsertionSort_permutation comparefn a)).
Defined.

(** On descriptors that carry integer levels, an insertion sort that moves
    an element past the ones the comparison puts after it puts the deeper
    files first. *)
Example mixed_sorted :
  List.map file (sortFilesByHierarchy (@Engine.InsertionSort _) Examples.mixed)
  = ["s2"; "s1"; "s0"; "e1"; "e0"; "p0"; "p2"].
Proof. reflexivity. Qed.

(** ** The comparison function on integer levels *)

Lemma sortFunc_depth a b :
  has_depth a -> has_depth b -> sortFunc a b = (depth_of a <? depth_of b)%Z.
Proof.
  intros [x Hx] [y Hy]. unfold sortFunc, less_than, depth_of. now rewrite Hx, Hy.
Qed.

Lemma insert_ascending element before :
  has_depth element ->
  Forall has_depth before ->
  StronglySorted (fun a b => (depth_of a <= depth_of b)%Z) before ->
  StronglySorted (fun a b => (depth_of a <= depth_of b)%Z)
    (Engine.insert (fun a b => ToNumber_bool (sortFunc a b)) element before).
Proof.
  intros Helement Hbefore Hsorted.
  induction before as [ | tmp rest IH]; cbn [Engine.insert].
  - repeat constructor.
  - apply Forall_cons in Hbefore as [Htmp Hrest].
    apply StronglySorted_cons in Hsorted as [Hle Hsorted].
    rewrite (sortFunc_depth _ _ Htmp Helement).
    destruct (depth_of tmp <? depth_of element)%Z eqn:Hcmp; cbn.
    + apply Z.ltb_lt in Hcmp. apply StronglySorted_cons. split; [ | now apply IH].
      rewrite (insert_permutation _ element rest). constructor; [lia | exact Hle].
    + apply Z.ltb_ge in Hcmp. apply StronglySorted_cons. split.
      * constructor; [exact Hcmp | ].
        eapply Forall_impl; [exact Hle | ]. cbn. intros; lia.
      * apply StronglySorted_cons. now split.
Qed.

Lemma fold_insert_ascending a :
  forall before,
    Forall has_depth a ->
    Forall has_depth before ->
    StronglySorted (fun a b => (depth_of a <= depth_of b)%Z) before ->
    StronglySorted (fun a b => (depth_of a <= depth_of b)%Z)
      (fold_left
         (fun before element =>
            Engine.insert (fun a b => ToNumber_bool (sortFunc a b)) element before)
         a before).
Proof.
  induction a as [ | x a IH]; intros before Ha Hbefore Hsorted; cbn [fold_left].
  - exact Hsorted.
  - apply Forall_cons in Ha as [Hx Ha]. apply IH; [exact Ha | | ].
    + rewrite (insert_permutation _ x before). now constructor.
    + now apply insert_ascending.
Qed.

Lemma StronglySorted_rev {A : Type} (R : A -> A -> Prop) (l : list A) :
  StronglySorted R l -> StronglySorted (fun a b => R b a) (rev l).
Proof.
  induction l as [ | x l IH]; intros Hsorted; cbn [rev].
  - constructor.
  - apply StronglySorted_cons in Hsorted as [Hx Hsorted].
    apply StronglySorted_app. split; [ | split; [now apply IH | repeat constructor]].
    intros x1 x2 Hx1 Hx2. apply list_elem_of_In in Hx1, Hx2.
    destruct Hx2 as [<- | []]. apply in_rev in Hx1.
    rewrite List.Forall_forall in Hx. now apply Hx.
Qed.

(** On descriptors that carry integer levels, this insertion sort, which
    moves an element past the ones [sortFunc] answers [true] for, puts the
    deeper files before the shallower ones. *)
Lemma InsertionSort_deeper_first a :
  Forall has_depth a ->
  StronglySorted (fun x y => (depth_of y <= depth_of x)%Z)
    (Engine.InsertionSort (fun a b => ToNumber_bool (sortFunc a b)) a).
Proof.
  intros Ha. unfold Engine.InsertionSort.
  apply (StronglySorted_rev (fun x y => (depth_of x <= depth_of y)%Z)).
  apply fold_insert_ascending; [exact Ha | constructor | constructor].
Qed.

(** ** A sort that acts on negative answers *)

Lemma sortFunc_never_negative a b : (0 <= ToNumber_bool (sortFunc a b))%Z.
Proof. now destruct (sortFunc a b). Qed.

Section InsertionSortByLessFacts.

Context {A : Type}.
Variable comparefn : A -> A -> Z.

Lemma fold_insert_if_less_never_negative a :
  (forall x y, (0 <= comparefn x y)%Z) ->
  forall before,
    fold_left (fun before element => Engine.insert_if_less comparefn element before) a before
    = rev a ++ before.
Proof.
  intros Hnever. induction a as [ | x a IH]; intros before; cbn [fold_left rev].
  - reflexivity.
  - assert (Hins : Engine.insert_if_less comparefn x before = x :: before).
    { destruct before as [ | tmp rest]; [reflexivity | ].
      cbn [Engine.insert_if_less].
      replace (comparefn x tmp <? 0)%Z with false; [reflexivity | ].
      symmetry. apply Z.ltb_ge. apply Hnever. }
    now rewrite Hins, IH, <- app_assoc.
Qed.

(** Such a sort leaves the array as it is when the comparison never
    answers a negative number. *)
Lemma InsertionSort_by_less_never_negative a :
  (forall x y, (0 <= comparefn x y)%Z) ->
  Engine.InsertionSort_by_less comparefn a = a.
Proof.
  intros Hnever. unfold Engine.InsertionSort_by_less.
  now rewrite fold_insert_if_less_never_negative, app_nil_r, rev_involutive.
Qed.

End InsertionSortByLessFacts.

(** C4 (the code is at fault): [sortFunc] answers [true] or [false], never
    a negative number, so a sort that moves an element only in front of one
    the comparison puts it before, by a negative answer, moves nothing: the
    sorter returns the Service files, the EnvironmentService files and the
    Parameter files, each group in the order it was given, whatever the
    levels.  The result is a permutation of the files given, but no group
    is sorted by depth: given a file of level 0 and then a file of level 1,
    the sorter returns them in this order, where the claim has the deeper
    one first. *)
Theorem sortFilesByHierarchy_sorts_no_depth array_sort :
  (forall comparefn a, (forall x y, (0 <= comparefn x y)%Z) -> array_sort comparefn a = a) ->
  (forall files,
     sortFilesByHierarchy array_sort files
     = List.filter is_Service files ++ List.filter is_EnvironmentService files
       ++ List.filter is_Parameter files)
  /\ (forall files, Permutation (sortFilesByHierarchy array_sort files) files)
  /\ sortFilesByHierarchy array_sort Examples.shallow_then_deep
     = Examples.shallow_then_deep
  /\ List.map depth_of (sortFilesByHierarchy array_sort Examples.shallow_then_deep)
     = [0%Z; 1%Z].
Proof.
  intros Hnever.
  assert (Hgroups : forall files,
             sortFilesByHierarchy array_sort files
             = List.filter is_Service files ++ List.filter is_EnvironmentService files
               ++ List.filter is_Parameter files).
  { intros files. rewrite sortFilesByHierarchy_groups.
    now rewrite !Hnever by (intros x y; apply sortFunc_never_negative). }
  split; [exact Hgroups | ].
  split; [intros files; rewrite Hgroups; apply three_groups_permutation | ].
  rewrite Hgroups. split; reflexivity.
Qed.

Lemma sortFilesByHierarchy_sorts_no_depth_witness :
  List.map depth_of
    (sortFilesByHierarchy (@Engine.InsertionSort_by_less _) Examples.shallow_then_deep)
  = [0%Z; 1%Z].
Proof.
  exact (proj2 (proj2 (proj2
           (sortFilesByHierarchy_sorts_no_depth (@Engine.InsertionSort_by_less _)
              (fun comparefn a => InsertionSort_by_less_never_negative comparefn a))))).
Defined.

(** The same two files under the insertion sort that moves an element past
    the ones [sortFunc] answers [true] for: the deeper one comes first. *)
Example shallow_then_deep_by_positive_answers :
  List.map depth_of
    (sortFilesByHierarchy (@Engine.InsertionSort _) Examples.shallow_then_deep)
  = [1%Z; 0%Z].
Proof. reflexivity. Qed.

(** ** The order of a build *)

(** The comparison function answers [false] as soon as one of the two
    levels is [undefined] or [NaN]. *)
Lemma sortFunc_no_depth a b :
  (level a = None \/ level a = Some NaN) \/ (level b = None \/ level b = Some NaN) ->
  sortFunc a b = false.
Proof.
  unfold sortFunc, less_than.
  intros [[-> | ->] | [-> | ->]]; cbn; try reflexivity;
    now destruct (ToNumber (level a)).
Qed.

(** It never answers a negative number, and it is not a consistent
    comparison: it ties the deeper file with the shallower one, but not
    the shallower one with the deeper one. *)
Lemma sortFunc_not_consistent :
  (forall a b, (0 <= ToNumber_bool (sortFunc a b))%Z)
  /\ ToNumber_bool (sortFunc (Examples.at_level "deep" 1 false false)
                        (Examples.at_level "root" 0 false false)) = 0%Z
  /\ ToNumber_bool (sortFunc (Examples.at_level "root" 0 false false)
                        (Examples.at_level "deep" 1 false false)) = 1%Z.
Proof.
  repeat split. intros a b. now destruct (sortFunc a b).
Qed.

(** In a build every comparison is a tie, so a sort that keeps ties in
    place hands the files over in the order of discovery, group by
    group. *)
Lemma buildContainer_order array_sort this fs rootdirectory :
  (forall comparefn a,
     (forall x y, In x a -> In y a -> comparefn x y = 0%Z) -> array_sort comparefn a = a) ->
  sortFilesByHierarchy array_sort (discovered this fs rootdirectory)
  = List.filter is_Service (discovered this fs rootdirectory)
    ++ List.filter is_EnvironmentService (discovered this fs rootdirectory)
    ++ List.filter is_Parameter (discovered this fs rootdirectory).
Proof.
  intros Hties. rewrite sortFilesByHierarchy_groups.
  assert (Htie : forall (keep : FileDescriptor -> bool) x y,
             In x (List.filter keep (discovered this fs rootdirectory)) ->
             In y (List.filter keep (discovered this fs rootdirectory)) ->
             ToNumber_bool (sortFunc x y) = 0%Z).
  { intros keep x y Hx _. apply List.filter_In in Hx as [Hx _].
    apply discovered_level in Hx as ([ | name names] & _ & Hlevel);
      rewrite sortFunc_no_depth; auto. }
  rewrite !Hties; [reflexivity | apply Htie | apply Htie].
Qed.

(** C1 (the code is at fault): the root directory holds [services.json]
    and, listed after it, a directory [sub] with a [services.json]; both
    set the parameter [x] and the service [svc].  The build resolves the
    file of the root first and the deeper file after it, so the deeper
    file's [x] and [svc] are the ones left in the container. *)
Theorem buildContainer_deeper_file_wins array_sort :
  (forall comparefn a,
     (forall x y, In x a -> In y a -> comparefn x y = 0%Z) -> array_sort comparefn a = a) ->
  let built :=
    snd (buildContainer Examples.two_levels_require array_sort 1 new_Builder
           Examples.two_levels "/app" None) in
  snd built = Returned
  /\ Container.journal (fst built)
     = [Container.SetParameter "x" (JNum 1);
        Container.SetService "svc" (buildDefinition (Examples.class_only "Root") "/app" "");
        Container.SetParameter "x" (JNum 2);
        Container.SetService "svc" (buildDefinition (Examples.class_only "Deep") "/app/sub" "")]
  /\ Container.parameters (fst built) !! "x" = Some (JNum 2)
  /\ Container.definitions (fst built) !! "svc"
     = Some (buildDefinition (Examples.class_only "Deep") "/app/sub" "").
Proof.
  intros Hties built. subst built.
  rewrite buildContainer_unfold. cbn [snd].
  rewrite (buildContainer_order _ _ _ _ Hties).
  repeat split; vm_compute; reflexivity.
Qed.

Lemma buildContainer_deeper_file_wins_witness :
  Container.parameters
    (fst (snd (buildContainer Examples.two_levels_require (@Engine.InsertionSort _) 1
                 new_Builder Examples.two_levels "/app" None))) !! "x"
  = Some (JNum 2).
Proof.
  exact (proj1 (proj2 (proj2
           (buildContainer_deeper_file_wins (@Engine.InsertionSort _)
              (fun comparefn a => InsertionSort_ties comparefn a))))).
Defined.

(** ** The calls of a resolution *)

Lemma addParameters_journal pre params :
  forall c,
    Container.journal (addParameters pre params c)
    = Container.journal c ++ own_parameters pre params
    /\ Container.definitions (addParameters pre params c) = Container.definitions c.
Proof.
  unfold addParameters, own_parameters.
  induction params as [ | [k v] params IH]; intros c; cbn [fold_left List.map fst snd].
  - now rewrite app_nil_r.
  - destruct (IH (Container.setParameter (pre +:+ k) v c)) as [-> ->]. cbn.
    now rewrite <- app_assoc.
Qed.

Lemma addServices_journal pre rootDirectory ns serviceConfigs :
  forall c,
    Container.journal (addServices pre rootDirectory ns serviceConfigs c)
    = Container.journal c ++ own_services pre rootDirectory ns serviceConfigs
    /\ Container.parameters (addServices pre rootDirectory ns serviceConfigs c)
       = Container.parameters c.
Proof.
  unfold addServices, own_services.
  induction serviceConfigs as [ | [k r] rest IH]; intros c; cbn [fold_left List.map fst snd].
  - now rewrite app_nil_r.
  - destruct (IH (Container.set (pre +:+ k) (buildDefinition r rootDirectory ns) c))
      as [-> ->].
    cbn. now rewrite <- app_assoc.
Qed.

Lemma append_injective pre k k' : pre +:+ k = pre +:+ k' -> k = k'.
Proof.
  induction pre as [ | c pre IH]; cbn; [auto | ].
  intros H. injection H as H. auto.
Qed.

Lemma addParameters_other pre params name :
  (forall k v, In (k, v) params -> pre +:+ k <> name) ->
  forall c,
    Container.parameters (addParameters pre params c) !! name
    = Container.parameters c !! name.
Proof.
  unfold addParameters.
  induction params as [ | [k v] params IH]; intros Hother c; cbn [fold_left fst snd].
  - reflexivity.
  - rewrite IH by (intros k' v' Hin; apply (Hother k' v'); now right).
    cbn. apply lookup_insert_ne. apply (Hother k v). now left.
Qed.

(** A parameter of the record is in the container after the loop over the
    parameters, whatever the container held before. *)
Lemma addParameters_lookup pre params :
  List.NoDup (List.map fst params) ->
  forall k v c,
    In (k, v) params ->
    Container.parameters (addParameters pre params c) !! (pre +:+ k) = Some v.
Proof.
  induction params as [ | [k0 v0] params IH]; intros Hnodup k v c Hin; [destruct Hin | ].
  cbn [List.map fst] in Hnodup. apply List.NoDup_cons_iff in Hnodup as [Hnotin Hrest].
  change (addParameters pre ((k0, v0) :: params) c)
    with (addParameters pre params (Container.setParameter (pre +:+ k0) v0 c)).
  destruct Hin as [Heq | Hin].
  - injection Heq as -> ->.
    rewrite addParameters_other.
    + cbn. apply lookup_insert_eq.
    + intros k' v' Hin' Hsame. apply append_injective in Hsame as ->.
      apply Hnotin.
      change k with (fst (k, v')). now apply in_map.
  - now apply IH.
Qed.

Lemma addServices_other pre rootDirectory ns serviceConfigs name :
  (forall k r, In (k, r) serviceConfigs -> pre +:+ k <> name) ->
  forall c,
    Container.definitions (addServices pre rootDirectory ns serviceConfigs c) !! name
    = Container.definitions c !! name.
Proof.
  unfold addServices.
  induction serviceConfigs as [ | [k r] rest IH]; intros Hother c; cbn [fold_left fst snd].
  - reflexivity.
  - rewrite IH by (intros k' r' Hin; apply (Hother k' r'); now right).
    cbn. apply lookup_insert_ne. apply (Hother k r). now left.
Qed.

Lemma addServices_lookup pre rootDirectory ns serviceConfigs :
  List.NoDup (List.map fst serviceConfigs) ->
  forall k r c,
    In (k, r) serviceConfigs ->
    Container.definitions (addServices pre rootDirectory ns serviceConfigs c) !! (pre +:+ k)
    = Some (buildDefinition r rootDirectory ns).
Proof.
  induction serviceConfigs as [ | [k0 r0] rest IH]; intros Hnodup k r c Hin;
    [destruct Hin | ].
  cbn [List.map fst] in Hnodup. apply List.NoDup_cons_iff in Hnodup as [Hnotin Hrest].
  change (addServices pre rootDirectory ns ((k0, r0) :: rest) c)
    with (addServices pre rootDirectory ns rest
            (Container.set (pre +:+ k0) (buildDefinition r0 rootDirectory ns) c)).
  destruct Hin as [Heq | Hin].
  - injection Heq as -> ->.
    rewrite addServices_other.
    + cbn. apply lookup_insert_eq.
    + intros k' r' Hin' Hsame. apply append_injective in Hsame as ->.
      apply Hnotin.
      change k with (fst (k, r')). now apply in_map.
  - now apply IH.
Qed.

(** The unfolding of one call of [parseFile]. *)
Lemma parseFile_step require fuel fileinfo container inherited :
  parseFile require (S fuel) fileinfo container inherited
  = match load require fileinfo with
    | None => (container, Threw (LoadError (file fileinfo)))
    | Some cfg =>
        let ns := effectiveNamespace inherited (Config.namespace cfg) in
        match for_imports (parseFile require fuel) fileinfo ns (Config.imports cfg)
                container with
        | (after, Returned) =>
            let with_parameters :=
              addParameters (modifiedNs ns) (Config.parameters cfg) after in
            if negb (flag (isParamFile fileinfo)) then
              (addServices (modifiedNs ns) (dir fileinfo) ns (Config.services cfg)
                 with_parameters, Returned)
            else (with_parameters, Returned)
        | stopped => stopped
        end
    end.
Proof. reflexivity. Qed.

Lemma for_imports_grows parse fileinfo ns imports :
  grows parse ->
  forall c,
    exists J,
      Container.journal (fst (for_imports parse fileinfo ns imports c))
      = Container.journal c ++ J.
Proof.
  intros Hparse.
  induction imports as [ | import rest IH]; intros c; cbn [for_imports].
  - exists []. now rewrite app_nil_r.
  - destruct (Hparse (importFile fileinfo import) c (Some ns)) as [J HJ].
    destruct (parse (importFile fileinfo import) c (Some ns)) as [next [ | e | ]];
      cbn [fst] in *; try (now exists J).
    destruct (IH next) as [J' HJ']. exists (J ++ J').
    now rewrite HJ', HJ, app_assoc.
Qed.

Lemma parseFile_grows require fuel : grows (parseFile require fuel).
Proof.
  induction fuel as [ | fuel IH]; intros fd c inherited.
  - exists []. cbn. now rewrite app_nil_r.
  - rewrite parseFile_step.
    destruct (load require fd) as [cfg | ]; [ | exists []; cbn; now rewrite app_nil_r].
    cbn zeta.
    destruct (for_imports_grows (parseFile require fuel) fd
                (effectiveNamespace inherited (Config.namespace cfg))
                (Config.imports cfg) IH c) as [J HJ].
    destruct (for_imports _ fd _ _ c) as [after [ | e | ]]; cbn [fst] in *;
      try (now exists J).
    destruct (negb (flag (isParamFile fd))); cbn [fst].
    + destruct (addServices_journal
                  (modifiedNs (effectiveNamespace inherited (Config.namespace cfg)))
                  (dir fd) (effectiveNamespace inherited (Config.namespace cfg))
                  (Config.services cfg)
                  (addParameters
                     (modifiedNs (effectiveNamespace inherited (Config.namespace cfg)))
                     (Config.parameters cfg) after)) as [-> _].
      destruct (addParameters_journal
                  (modifiedNs (effectiveNamespace inherited (Config.namespace cfg)))
                  (Config.parameters cfg) after) as [-> _].
      rewrite HJ, <- !app_assoc. eauto.
    + destruct (addParameters_journal
                  (modifiedNs (effectiveNamespace inherited (Config.namespace cfg)))
                  (Config.parameters cfg) after) as [-> _].
      rewrite HJ, <- !app_assoc. eauto.
Qed.

(** When the loop over the imports returns, every import was resolved, in
    the declared order, and the journal grew by their calls, one import
    after the other. *)
Lemma for_imports_in_order parse fileinfo ns imports :
  grows parse ->
  forall c after,
    for_imports parse fileinfo ns imports c = (after, Returned) ->
    exists Js,
      resolved_in_order parse fileinfo ns imports c Js after
      /\ Container.journal after = Container.journal c ++ concat Js.
Proof.
  intros Hparse.
  induction imports as [ | import rest IH]; intros c after Hrun; cbn [for_imports] in Hrun.
  - injection Hrun as <-. exists []. cbn. now rewrite app_nil_r.
  - destruct (Hparse (importFile fileinfo import) c (Some ns)) as [J HJ].
    destruct (parse (importFile fileinfo import) c (Some ns)) as [next [ | e | ]] eqn:Hone;
      try discriminate Hrun.
    cbn [fst] in HJ.
    destruct (IH next after Hrun) as (Js & Horder & Hjournal).
    exists (J :: Js). split.
    + cbn [resolved_in_order]. exists next. rewrite Hone. auto.
    + cbn [concat]. now rewrite Hjournal, HJ, app_assoc.
Qed.

(** More fuel does not change a call that ended within its fuel. *)
Lemma parseFile_more_fuel require fuel :
  forall fd c inherited,
    snd (parseFile require fuel fd c inherited) <> OutOfFuel ->
    parseFile require (S fuel) fd c inherited = parseFile require fuel fd c inherited.
Proof.
  induction fuel as [ | fuel IH]; intros fd c inherited Hended.
  - now elim Hended.
  - rewrite (parseFile_step require (S fuel)). rewrite parseFile_step in Hended |- *.
    destruct (load require fd) as [cfg | ]; [ | reflexivity].
    cbn zeta in *.
    assert (Himports : forall imports c0,
               snd (for_imports (parseFile require fuel) fd
                      (effectiveNamespace inherited (Config.namespace cfg)) imports c0)
               <> OutOfFuel ->
               for_imports (parseFile require (S fuel)) fd
                 (effectiveNamespace inherited (Config.namespace cfg)) imports c0
               = for_imports (parseFile require fuel) fd
                   (effectiveNamespace inherited (Config.namespace cfg)) imports c0).
    { induction imports as [ | import rest IHrest]; intros c0 Hrun; [reflexivity | ].
      cbn [for_imports] in *.
      rewrite IH.
      - destruct (parseFile require fuel (importFile fd import) c0 _) as [next [ | e | ]];
          auto.
      - destruct (parseFile require fuel (importFile fd import) c0 _) as [next [ | e | ]];
          cbn; try discriminate. exact Hrun. }
    rewrite Himports; [reflexivity | ].
    destruct (for_imports (parseFile require fuel) fd _ _ c) as [after [ | e | ]];
      cbn; try discriminate. exact Hended.
Qed.

Lemma parseFile_enough_fuel require fuel extra fd c inherited :
  snd (parseFile require fuel fd c inherited) <> OutOfFuel ->
  parseFile require (extra + fuel) fd c inherited = parseFile require fuel fd c inherited.
Proof.
  intros Hended. induction extra as [ | extra IH]; [reflexivity | ].
  cbn [Nat.add]. rewrite parseFile_more_fuel; [exact IH | now rewrite IH].
Qed.

(** ** Imports and the record's own entries *)

(** C6: when a resolution returns, its imports were resolved one after the
    other in the declared order, and the journal is the one before the
    call, then the calls of the imports in that order, then the
    [setParameter] calls of the record, then its [set] calls.  So a
    parameter or a service of the record is what the container holds under
    its name afterwards, whatever the imports set. *)
Theorem parseFile_imports_before_own require fuel fileinfo container inherited cfg after :
  load require fileinfo = Some cfg ->
  parseFile require (S fuel) fileinfo container inherited = (after, Returned) ->
  let ns := effectiveNamespace inherited (Config.namespace cfg) in
  (exists Js last,
     resolved_in_order (parseFile require fuel) fileinfo ns (Config.imports cfg)
       container Js last
     /\ Container.journal after
        = Container.journal container ++ concat Js
          ++ own_parameters (modifiedNs ns) (Config.parameters cfg)
          ++ (if flag (isParamFile fileinfo) then []
              else own_services (modifiedNs ns) (dir fileinfo) ns (Config.services cfg)))
  /\ (List.NoDup (List.map fst (Config.parameters cfg)) ->
      forall k v,
        In (k, v) (Config.parameters cfg) ->
        Container.parameters after !! (modifiedNs ns +:+ k) = Some v)
  /\ (flag (isParamFile fileinfo) = false ->
      List.NoDup (List.map fst (Config.services cfg)) ->
      forall k r,
        In (k, r) (Config.services cfg) ->
        Container.definitions after !! (modifiedNs ns +:+ k)
        = Some (buildDefinition r (dir fileinfo) ns)).
Proof.
  intros Hload Hrun ns. rewrite parseFile_step, Hload in Hrun. cbn zeta in Hrun.
  fold ns in Hrun.
  destruct (for_imports (parseFile require fuel) fileinfo ns (Config.imports cfg) container)
    as [imported [ | e | ]] eqn:Himports; try discriminate Hrun.
  destruct (for_imports_in_order _ _ _ _ (parseFile_grows require fuel) _ _ Himports)
    as (Js & Horder & Hjournal).
  destruct (addParameters_journal (modifiedNs ns) (Config.parameters cfg) imported)
    as [Hparams _].
  destruct (flag (isParamFile fileinfo)) eqn:Hflag; cbn [negb] in Hrun;
    injection Hrun as <-.
  - split; [ | split].
    + exists Js, imported. split; [exact Horder | ].
      now rewrite Hparams, Hjournal, app_nil_r, <- app_assoc.
    + intros Hnodup k v Hin. now apply addParameters_lookup.
    + discriminate.
  - destruct (addServices_journal (modifiedNs ns) (dir fileinfo) ns (Config.services cfg)
                (addParameters (modifiedNs ns) (Config.parameters cfg) imported))
      as [Hservices Hsame].
    split; [ | split].
    + exists Js, imported. split; [exact Horder | ].
      now rewrite Hservices, Hparams, Hjournal, <- !app_assoc.
    + intros Hnodup k v Hin. rewrite Hsame. now apply addParameters_lookup.
    + intros _ Hnodup k r Hin. now apply addServices_lookup.
Qed.

Lemma parseFile_imports_before_own_witness :
  parseFile Examples.overriding 2 Examples.app_services (makeEmptyContainer "/app") None
  = (fst (parseFile Examples.overriding 2 Examples.app_services
            (makeEmptyContainer "/app") None), Returned)
  /\ Container.parameters
       (fst (parseFile Examples.overriding 2 Examples.app_services
               (makeEmptyContainer "/app") None)) !! "x"
     = Some (JNum 0).
Proof.
  split; [vm_compute; reflexivity | ].
  refine (proj1 (proj2
            (parseFile_imports_before_own Examples.overriding 1 Examples.app_services
               (makeEmptyContainer "/app") None
               (Config.mk None ["./one.json"; "./two.json"] [("x", JNum 0)]
                  [("svc", Examples.no_fields)])
               _ eq_refl _)) _ "x" (JNum 0) _).
  - vm_compute; reflexivity.
  - cbn. repeat constructor. intros [].
  - now left.
Defined.

(** The journal of that resolution: the imports first, in their order. *)
Example overriding_journal :
  Container.journal
    (fst (parseFile Examples.overriding 2 Examples.app_services
            (makeEmptyContainer "/app") None))
  = [Container.SetParameter "x" (JNum 1);
     Container.SetService "svc" (buildDefinition Examples.no_fields "/app" "");
     Container.SetParameter "x" (JNum 2);
     Container.SetParameter "y" (JNum 3);
     Container.SetParameter "x" (JNum 0);
     Container.SetService "svc" (buildDefinition Examples.no_fields "/app" "")].
Proof. vm_compute. reflexivity. Qed.

(** ** Namespaces *)

Lemma append_assoc (s1 s2 s3 : string) : (s1 +:+ s2) +:+ s3 = s1 +:+ s2 +:+ s3.
Proof.
  induction s1 as [ | c s1 IH]; [reflexivity | ].
  change (String c ((s1 +:+ s2) +:+ s3) = String c (s1 +:+ s2 +:+ s3)).
  now rewrite IH.
Qed.

Lemma nonempty_true s : s <> EmptyString -> nonempty s = true.
Proof. destruct s; [intros H; now elim H | reflexivity]. Qed.

Lemma nonempty_append s1 s2 : nonempty s1 = true -> nonempty (s1 +:+ s2) = true.
Proof. now destruct s1. Qed.

(** C5 (as stated, refuted): a record that declares the empty namespace
    under the inherited namespace [a] leaves the namespace [a], not [a]
    followed by a dot; its parameter [p] is registered as [a.p]. *)
Lemma empty_namespace_is_not_composed :
  effectiveNamespace (Some "a") (Config.namespace Examples.empty_namespace)
  <> "a" +:+ "." +:+ ""
  /\ Container.journal
       (fst (parseFile (fun _ => None) 1 Examples.preloaded (makeEmptyContainer "/app")
               (Some "a")))
     = [Container.SetParameter "a.p" (JNum 5)].
Proof. split; [discriminate | reflexivity]. Qed.

(** C5 (amended): a declared namespace that is not empty is appended to
    the inherited one after a dot, or taken alone when nothing is
    inherited; without a declared namespace, or with an empty one, the
    inherited namespace stays.  A file that declares [a] and imports a
    file that declares [b] with a parameter [p] makes the call
    [setParameter("a.b.p", v)]. *)
Theorem namespace_composition :
  (forall inherited declared,
     declared <> EmptyString ->
     effectiveNamespace inherited (Some declared)
     = if nonempty (or_empty inherited)
       then or_empty inherited +:+ "." +:+ declared
       else declared)
  /\ (forall inherited,
        effectiveNamespace inherited None = or_empty inherited
        /\ effectiveNamespace inherited (Some EmptyString) = or_empty inherited)
  /\ (forall require fuel fileinfo container cfgA cfgB a b import p v,
        load require fileinfo = Some cfgA ->
        Config.namespace cfgA = Some a -> a <> EmptyString ->
        Config.imports cfgA = [import] ->
        require (file (importFile fileinfo import)) = Some cfgB ->
        Config.namespace cfgB = Some b -> b <> EmptyString ->
        Config.imports cfgB = [] ->
        In (p, v) (Config.parameters cfgB) ->
        snd (parseFile require (S (S fuel)) fileinfo container None) = Returned
        /\ In (Container.SetParameter (a +:+ "." +:+ b +:+ "." +:+ p) v)
             (Container.journal
                (fst (parseFile require (S (S fuel)) fileinfo container None)))).
Proof.
  split; [ | split].
  - intros inherited declared Hdeclared. unfold effectiveNamespace.
    now rewrite (nonempty_true _ Hdeclared).
  - intros inherited. split; reflexivity.
  - intros require fuel fileinfo container cfgA cfgB a b import p v
      HloadA HnsA Ha HimportsA HloadB HnsB Hb HimportsB Hp.
    assert (Hchild :
              parseFile require (S fuel) (importFile fileinfo import) container (Some a)
              = (addServices (modifiedNs (a +:+ "." +:+ b))
                   (dir (importFile fileinfo import)) (a +:+ "." +:+ b)
                   (Config.services cfgB)
                   (addParameters (modifiedNs (a +:+ "." +:+ b)) (Config.parameters cfgB)
                      container),
                 Returned)).
    { rewrite parseFile_step. unfold load. cbn [config importFile]. rewrite HloadB.
      cbn zeta. rewrite HnsB, HimportsB. cbn [for_imports isParamFile flag negb].
      unfold effectiveNamespace. cbn [or_empty].
      now rewrite (nonempty_true _ Ha), (nonempty_true _ Hb). }
    rewrite parseFile_step, HloadA. cbn zeta. rewrite HnsA, HimportsA.
    assert (Hns : effectiveNamespace None (Some a) = a).
    { unfold effectiveNamespace. now rewrite (nonempty_true _ Ha). }
    rewrite Hns. cbn [for_imports]. rewrite Hchild.
    assert (Hin : forall c,
               In (Container.SetParameter (a +:+ "." +:+ b +:+ "." +:+ p) v)
                 (Container.journal
                    (addServices (modifiedNs (a +:+ "." +:+ b))
                       (dir (importFile fileinfo import)) (a +:+ "." +:+ b)
                       (Config.services cfgB)
                       (addParameters (modifiedNs (a +:+ "." +:+ b))
                          (Config.parameters cfgB) c)))).
    { intros c.
      destruct (addServices_journal (modifiedNs (a +:+ "." +:+ b))
                  (dir (importFile fileinfo import)) (a +:+ "." +:+ b)
                  (Config.services cfgB)
                  (addParameters (modifiedNs (a +:+ "." +:+ b)) (Config.parameters cfgB) c))
        as [-> _].
      destruct (addParameters_journal (modifiedNs (a +:+ "." +:+ b))
                  (Config.parameters cfgB) c) as [-> _].
      apply in_or_app. left. apply in_or_app. right.
      unfold own_parameters. apply in_map_iff. exists (p, v). split; [ | exact Hp].
      cbn [fst snd]. f_equal. unfold modifiedNs.
      rewrite nonempty_append by now apply nonempty_true.
      now rewrite !append_assoc. }
    set (imported := addServices _ _ _ _ _) in *.
    destruct (addParameters_journal (modifiedNs a) (Config.parameters cfgA) imported)
      as [HjournalA _].
    destruct (negb (flag (isParamFile fileinfo))); cbn [fst snd]; (split; [reflexivity | ]).
    + destruct (addServices_journal (modifiedNs a) (dir fileinfo) a (Config.services cfgA)
                  (addParameters (modifiedNs a) (Config.parameters cfgA) imported))
        as [-> _].
      rewrite HjournalA. apply in_or_app. left. apply in_or_app. left. apply Hin.
    + rewrite HjournalA. apply in_or_app. left. apply Hin.
Qed.

Lemma namespace_composition_witness :
  snd (parseFile Examples.a_imports_b 2 Examples.app_services (makeEmptyContainer "/app")
         None) = Returned
  /\ In (Container.SetParameter "a.b.p" (JNum 5))
       (Container.journal
          (fst (parseFile Examples.a_imports_b 2 Examples.app_services
                  (makeEmptyContainer "/app") None))).
Proof.
  refine (proj2 (proj2 namespace_composition) Examples.a_imports_b 0 Examples.app_services
            (makeEmptyContainer "/app")
            (Config.mk (Some "a") ["./b.json"] [] [])
            (Config.mk (Some "b") [] [("p", JNum 5)] [])
            "a" "b" "./b.json" "p" (JNum 5)
            eq_refl eq_refl _ eq_refl eq_refl eq_refl _ eq_refl _).
  - discriminate.
  - discriminate.
  - now left.
Defined.

(** The journal of that resolution holds this one call. *)
Example a_imports_b_journal :
  Container.journal
    (fst (parseFile Examples.a_imports_b 2 Examples.app_services (makeEmptyContainer "/app")
            None))
  = [Container.SetParameter "a.b.p" (JNum 5)].
Proof. reflexivity. Qed.

(** ** Parameter files *)

(** C7 (as stated, refuted): resolving [/app/parameters.json], a parameter
    file with a [services] field that imports [./extra.json], makes a
    [set] call for the service of the import, and the definitions of the
    container change. *)
Lemma parameter_file_import_sets_a_service :
  Container.journal
    (fst (parseFile Examples.parameters_import 2 Examples.app_parameters
            (makeEmptyContainer "/app") None))
  = [Container.SetService "svc" (buildDefinition Examples.no_fields "/app" "");
     Container.SetParameter "x" (JNum 1)]
  /\ Container.definitions
       (fst (parseFile Examples.parameters_import 2 Examples.app_parameters
               (makeEmptyContainer "/app") None))
     <> Container.definitions (makeEmptyContainer "/app").
Proof.
  split; [reflexivity | ].
  intros Hsame.
  assert (Hsvc : Container.definitions
                   (fst (parseFile Examples.parameters_import 2 Examples.app_parameters
                           (makeEmptyContainer "/app") None)) !! "svc"
                 = Container.definitions (makeEmptyContainer "/app") !! "svc")
    by now rewrite Hsame.
  vm_compute in Hsvc. discriminate Hsvc.
Qed.

(** C7 (amended): resolving a parameter file makes no [set] call for the
    [services] of its own record: after the calls of its imports the
    journal gains the [setParameter] calls of the record and nothing else,
    and the definitions are those the imports left.  Without imports the
    resolution returns and leaves the definitions of the container as they
    were. *)
Theorem parameter_file_sets_no_service_of_its_own
    require fuel fileinfo container inherited cfg :
  isParamFile fileinfo = Some true ->
  load require fileinfo = Some cfg ->
  let ns := effectiveNamespace inherited (Config.namespace cfg) in
  (forall after,
     parseFile require (S fuel) fileinfo container inherited = (after, Returned) ->
     exists imported,
       for_imports (parseFile require fuel) fileinfo ns (Config.imports cfg) container
       = (imported, Returned)
       /\ Container.journal after
          = Container.journal imported
            ++ own_parameters (modifiedNs ns) (Config.parameters cfg)
       /\ Container.definitions after = Container.definitions imported)
  /\ (Config.imports cfg = [] ->
      snd (parseFile require (S fuel) fileinfo container inherited) = Returned
      /\ Container.journal (fst (parseFile require (S fuel) fileinfo container inherited))
         = Container.journal container
           ++ own_parameters (modifiedNs ns) (Config.parameters cfg)
      /\ Container.definitions (fst (parseFile require (S fuel) fileinfo container inherited))
         = Container.definitions container).
Proof.
  intros Hparam Hload ns. rewrite parseFile_step, Hload, Hparam. cbn zeta. fold ns.
  cbn [flag negb]. split.
  - intros after Hrun.
    destruct (for_imports (parseFile require fuel) fileinfo ns (Config.imports cfg) container)
      as [imported [ | e | ]]; try discriminate Hrun.
    injection Hrun as <-. exists imported. split; [reflexivity | ].
    apply addParameters_journal.
  - intros ->. cbn [for_imports fst snd]. split; [reflexivity | ].
    apply addParameters_journal.
Qed.

Lemma parameter_file_sets_no_service_of_its_own_witness :
  snd (parseFile Examples.parameters_alone 1 Examples.app_parameters
         (makeEmptyContainer "/app") None) = Returned
  /\ Container.journal
       (fst (parseFile Examples.parameters_alone 1 Examples.app_parameters
               (makeEmptyContainer "/app") None))
     = Container.journal (makeEmptyContainer "/app")
       ++ own_parameters (modifiedNs (effectiveNamespace None (Some "db")))
            [("host", JStr "localhost")]
  /\ Container.definitions
       (fst (parseFile Examples.parameters_alone 1 Examples.app_parameters
               (makeEmptyContainer "/app") None))
     = Container.definitions (makeEmptyContainer "/app").
Proof.
  exact (proj2
           (parameter_file_sets_no_service_of_its_own Examples.parameters_alone 0
              Examples.app_parameters (makeEmptyContainer "/app") None
              (Config.mk (Some "db") [] [("host", JStr "localhost")]
                 [("own", Examples.no_fields)])
              eq_refl eq_refl)
           eq_refl).
Defined.

(** The one call of that resolution. *)
Example parameters_alone_journal :
  Container.journal
    (fst (parseFile Examples.parameters_alone 1 Examples.app_parameters
            (makeEmptyContainer "/app") None))
  = [Container.SetParameter "db.host" (JStr "localhost")].
Proof. reflexivity. Qed.

(** ** The Definition Normalizer *)

Lemma of_json_defined j : of_json j <> VUndefined.
Proof. now destruct j. Qed.

(** C8: a record without [isSingleton] is normalized to [isSingleton ===
    true], an explicit [isSingleton: false] is kept, a record without
    [tags] gets the empty array, and for every record neither [isSingleton]
    nor [tags] is [undefined] afterwards. *)
Theorem buildDefinition_defaults rootDirectory ns :
  (forall class constructorMethod arguments calls properties isObject isFunction tags,
     Def.isSingleton
       (buildDefinition
          (mkRaw class constructorMethod arguments calls properties isObject isFunction
             None tags) rootDirectory ns)
     = VBool true)
  /\ (forall class constructorMethod arguments calls properties isObject isFunction tags,
        Def.isSingleton
          (buildDefinition
             (mkRaw class constructorMethod arguments calls properties isObject isFunction
                (Some (JBool false)) tags) rootDirectory ns)
        = VBool false)
  /\ (forall class constructorMethod arguments calls properties isObject isFunction
             isSingleton,
        Def.tags
          (buildDefinition
             (mkRaw class constructorMethod arguments calls properties isObject isFunction
                isSingleton None) rootDirectory ns)
        = VArr [])
  /\ (forall config,
        Def.isSingleton (buildDefinition config rootDirectory ns) <> VUndefined
        /\ Def.tags (buildDefinition config rootDirectory ns) <> VUndefined).
Proof.
  split; [reflexivity | split; [reflexivity | split; [reflexivity | ]]].
  intros raw. split.
  - cbn. destruct (raw_isSingleton raw); [apply of_json_defined | discriminate].
  - cbn. destruct (truthy (get (raw_tags raw))) eqn:Htruthy; [ | discriminate].
    intros Hundefined. rewrite Hundefined in Htruthy. discriminate Htruthy.
Qed.

(** A record as authored, and what the normalizer makes of it. *)
Example buildDefinition_of_class :
  buildDefinition (Examples.class_only "Db") "/app/moduleA" "moduleA"
  = {| Def.file := VStr "Db"; Def.namespace := VStr "moduleA";
       Def.rootDirectory := VStr "/app/moduleA"; Def.class := VNull;
       Def.constructorMethod := VUndefined; Def.factoryClass := VNull;
       Def.arguments := VUndefined; Def.calls := VUndefined;
       Def.properties := VUndefined; Def.tags := VArr [];
       Def.isSingleton := VBool true; Def.isObject := VUndefined;
       Def.isFunction := VUndefined; Def.scope := VNull; Def.isPublic := VBool true;
       Def.isSynthetic := VBool false; Def.isAbstract := VBool false;
       Def.configurator := VNull |}.
Proof. reflexivity. Qed.

(** ** The Definition entity *)

Lemma set_calls_calls d c : Def.calls (Def.set_calls d c) = c.
Proof. reflexivity. Qed.

Lemma set_calls_twice d c c' : Def.set_calls (Def.set_calls d c) c' = Def.set_calls d c'.
Proof. reflexivity. Qed.

Lemma set_calls_same d : Def.set_calls d (Def.calls d) = d.
Proof. now destruct d. Qed.

Lemma valid_method_accepted method :
  valid_method method -> negb (truthy method) || negb (is_string method) = false.
Proof.
  intros (s & -> & Hs). cbn. now rewrite (nonempty_true _ Hs).
Qed.

Lemma invalid_method_refused method :
  ~ valid_method method -> negb (truthy method) || negb (is_string method) = true.
Proof.
  intros Hinvalid. destruct method as [ | | b | z | s | l | o]; cbn;
    try reflexivity; try apply orb_true_r.
  destruct s as [ | c s]; [reflexivity | ].
  elim Hinvalid. exists (String c s). split; [reflexivity | discriminate].
Qed.

Lemma addMethodCall_appends method args this l :
  valid_method method ->
  Def.calls this = VArr l ->
  Def.addMethodCall method args this
  = (Def.set_calls this (VArr (l ++ [pair_of method args])), Def.Return).
Proof.
  intros Hvalid Hcalls. unfold Def.addMethodCall.
  now rewrite (valid_method_accepted _ Hvalid), Hcalls.
Qed.

Lemma addMethodCall_refuses method args this :
  ~ valid_method method ->
  exists message,
    Def.addMethodCall method args this = (this, Def.Throw (Def.InvalidArgument message)).
Proof.
  intros Hinvalid. unfold Def.addMethodCall.
  rewrite (invalid_method_refused _ Hinvalid). eauto.
Qed.

Lemma setMethodCalls_applies pairs :
  forall this l,
    Def.calls this = VArr l ->
    Forall valid_method (List.map fst pairs) ->
    forall rest,
      Def.setMethodCalls (List.map (fun p => pair_of (fst p) (snd p)) pairs ++ rest) this
      = Def.setMethodCalls rest
          (Def.set_calls this
             (VArr (l ++ List.map (fun p => pair_of (fst p) (snd p)) pairs))).
Proof.
  induction pairs as [ | [method args] pairs IH]; intros this l Hcalls Hvalid rest.
  - cbn [List.map app]. now rewrite app_nil_r, <- Hcalls, set_calls_same.
  - cbn [List.map fst snd] in *. apply Forall_cons in Hvalid as [Hmethod Hvalid].
    cbn [app Def.setMethodCalls pair_of Def.index nth].
    change (VArr [method; args]) with (pair_of method args).
    rewrite (addMethodCall_appends _ _ _ _ Hmethod Hcalls).
    rewrite (IH _ (l ++ [pair_of method args]) (set_calls_calls _ _) Hvalid).
    now rewrite set_calls_twice, <- app_assoc.
Qed.

(** C9 (as stated, refuted): on the definition normalized from a record
    without [calls], [addMethodCall] with a valid name appends nothing and
    throws, and what it throws is a [TypeError]. *)
Lemma addMethodCall_without_calls_array :
  Def.addMethodCall (VStr "init") (VArr [])
    (buildDefinition (Examples.class_only "Db") "/app" "")
  = (buildDefinition (Examples.class_only "Db") "/app" "", Def.Throw Def.TypeError)
  /\ Def.calls
       (fst (Def.addMethodCall (VStr "init") (VArr [])
               (buildDefinition (Examples.class_only "Db") "/app" "")))
     = VUndefined.
Proof. split; reflexivity. Qed.

(** C9 (amended): [addMethodCall] throws the invalid-argument error exactly
    when the method name is not a string or is empty, and leaves the
    definition as it was.  With a valid name, when [calls] is an array it
    returns with the pair appended to [calls] and every other field as it
    was, and when [calls] is anything else it throws a [TypeError] and
    changes nothing.  [setMethodCalls] applies [addMethodCall] to the pairs
    in order: on a definition whose [calls] is an array, when all names are
    valid [calls] gains every pair, and at the first invalid name it throws
    the invalid-argument error with the pairs before it appended to [calls]
    and none after it. *)
Theorem addMethodCall_setMethodCalls :
  (forall method args this,
     (exists message,
        snd (Def.addMethodCall method args this)
        = Def.Throw (Def.InvalidArgument message))
     <-> ~ valid_method method)
  /\ (forall method args this,
        ~ valid_method method -> fst (Def.addMethodCall method args this) = this)
  /\ (forall method args this,
        valid_method method ->
        match Def.calls this with
        | VArr l =>
            snd (Def.addMethodCall method args this) = Def.Return
            /\ Def.calls (fst (Def.addMethodCall method args this))
               = VArr (l ++ [pair_of method args])
            /\ other_fields (fst (Def.addMethodCall method args this)) = other_fields this
        | _ => Def.addMethodCall method args this = (this, Def.Throw Def.TypeError)
        end)
  /\ (forall method args rest this,
        Def.setMethodCalls (pair_of method args :: rest) this
        = match Def.addMethodCall method args this with
          | (this', Def.Return) => Def.setMethodCalls rest this'
          | thrown => thrown
          end)
  /\ (forall pairs this l,
        Def.calls this = VArr l ->
        Forall valid_method (List.map fst pairs) ->
        snd (Def.setMethodCalls (List.map (fun p => pair_of (fst p) (snd p)) pairs) this)
        = Def.Return
        /\ Def.calls
             (fst (Def.setMethodCalls (List.map (fun p => pair_of (fst p) (snd p)) pairs)
                     this))
           = VArr (l ++ List.map (fun p => pair_of (fst p) (snd p)) pairs)
        /\ other_fields
             (fst (Def.setMethodCalls (List.map (fun p => pair_of (fst p) (snd p)) pairs)
                     this))
           = other_fields this)
  /\ (forall before method args rest this l,
        Def.calls this = VArr l ->
        Forall valid_method (List.map fst before) ->
        ~ valid_method method ->
        (exists message,
           snd (Def.setMethodCalls
                  (List.map (fun p => pair_of (fst p) (snd p)) before
                   ++ pair_of method args :: rest) this)
           = Def.Throw (Def.InvalidArgument message))
        /\ Def.calls
             (fst (Def.setMethodCalls
                     (List.map (fun p => pair_of (fst p) (snd p)) before
                      ++ pair_of method args :: rest) this))
           = VArr (l ++ List.map (fun p => pair_of (fst p) (snd p)) before)
        /\ other_fields
             (fst (Def.setMethodCalls
                     (List.map (fun p => pair_of (fst p) (snd p)) before
                      ++ pair_of method args :: rest) this))
           = other_fields this).
Proof.
  split; [ | split; [ | split; [ | split; [ | split]]]].
  - intros method args this. split.
    + intros [message Hthrown] Hvalid. unfold Def.addMethodCall in Hthrown.
      rewrite (valid_method_accepted _ Hvalid) in Hthrown.
      destruct (Def.calls this); discriminate Hthrown.
    + intros Hinvalid.
      destruct (addMethodCall_refuses method args this Hinvalid) as [message ->].
      now exists message.
  - intros method args this Hinvalid.
    now destruct (addMethodCall_refuses method args this Hinvalid) as [message ->].
  - intros method args this Hvalid.
    destruct (Def.calls this) as [ | | | | | l | ] eqn:Hcalls;
      [ | | | | | rewrite (addMethodCall_appends _ _ _ _ Hvalid Hcalls);
                  now repeat split | ];
      unfold Def.addMethodCall;
      now rewrite (valid_method_accepted _ Hvalid), Hcalls.
  - reflexivity.
  - intros pairs this l Hcalls Hvalid.
    pose proof (setMethodCalls_applies pairs this l Hcalls Hvalid []) as Happlied.
    rewrite app_nil_r in Happlied. rewrite Happlied. now repeat split.
  - intros before method args rest this l Hcalls Hvalid Hinvalid.
    rewrite (setMethodCalls_applies before this l Hcalls Hvalid).
    cbn [Def.setMethodCalls pair_of Def.index nth].
    destruct (addMethodCall_refuses method args
                (Def.set_calls this
                   (VArr (l ++ List.map (fun p => pair_of (fst p) (snd p)) before)))
                Hinvalid) as [message ->].
    split; [now exists message | now split].
Qed.

Lemma addMethodCall_setMethodCalls_witness :
  (exists message,
     snd (Def.setMethodCalls
            [pair_of (VStr "init") (VArr [VNum 1]); pair_of (VStr "") (VArr []);
             pair_of (VStr "start") (VArr [])]
            Def.new)
     = Def.Throw (Def.InvalidArgument message))
  /\ Def.calls
       (fst (Def.setMethodCalls
               [pair_of (VStr "init") (VArr [VNum 1]); pair_of (VStr "") (VArr []);
                pair_of (VStr "start") (VArr [])]
               Def.new))
     = VArr [pair_of (VStr "init") (VArr [VNum 1])]
  /\ other_fields
       (fst (Def.setMethodCalls
               [pair_of (VStr "init") (VArr [VNum 1]); pair_of (VStr "") (VArr []);
                pair_of (VStr "start") (VArr [])]
               Def.new))
     = other_fields Def.new.
Proof.
  refine (proj2 (proj2 (proj2 (proj2 (proj2 addMethodCall_setMethodCalls))))
            [(VStr "init", VArr [VNum 1])] (VStr "") (VArr [])
            [pair_of (VStr "start") (VArr [])] Def.new [] eq_refl _ _).
  - repeat constructor. exists "init". split; [reflexivity | discriminate].
  - intros (s & Hs & Hne). injection Hs as <-. now elim Hne.
Defined.

(** Two calls in a row, on a fresh entity. *)
Example addMethodCall_twice :
  Def.calls
    (fst (Def.addMethodCall (VStr "start") (VArr [])
            (fst (Def.addMethodCall (VStr "init") (VArr [VNum 1]) Def.new))))
  = VArr [VArr [VStr "init"; VArr [VNum 1]]; VArr [VStr "start"; VArr []]].
Proof. reflexivity. Qed.

(** * Further properties of the code *)

(** ** What the walk finds *)

Lemma classify_kinds this filepath absolutePath lvl fd :
  In fd (classify this filepath absolutePath lvl) ->
  fd = mkFile filepath absolutePath lvl (isEnvFile fd) (isParamFile fd) None
  /\ ((isEnvFile fd = Some false /\ isParamFile fd = Some false
       /\ Pattern.test pattern filepath = true)
      \/ (isEnvFile fd = Some false /\ isParamFile fd = Some true
          /\ Pattern.test pattern filepath = false
          /\ Pattern.test parameterPattern filepath = true)
      \/ (isEnvFile fd = Some true /\ isParamFile fd = Some false
          /\ Pattern.test pattern filepath = false
          /\ Pattern.test parameterPattern filepath = false
          /\ exists name,
               env_name (env (options this)) = Some name
               /\ Pattern.test (Pattern.RegExp ("services_" +:+ name +:+ ".json")) filepath
                  = true)).
Proof.
  unfold classify, envPattern.
  destruct (Pattern.test pattern filepath).
  { intros [<- | []]. cbn. auto 10. }
  destruct (Pattern.test parameterPattern filepath).
  { intros [<- | []]. cbn. auto 10. }
  destruct (env_name (env (options this))) as [name | ]; [ | intros []].
  destruct (Pattern.test _ filepath) eqn:Hname; [ | intros []].
  intros [<- | []]. cbn. split; [reflexivity | ].
  right. right. repeat split. now exists name.
Qed.

Lemma ascii_only_append s t :
  Pattern.ascii_only s = true -> Pattern.ascii_only t = true ->
  Pattern.ascii_only (s +:+ t) = true.
Proof.
  intros Hs Ht. induction s as [ | c s IH]; [exact Ht | ].
  change (String c s +:+ t) with (String c (s +:+ t)).
  cbn [Pattern.ascii_only] in *. apply andb_true_iff in Hs as [Hc Hs].
  rewrite Hc. now apply IH.
Qed.

Lemma ascii_tree_entry entries name sub :
  ascii_tree (Directory entries) = true -> In (name, sub) entries ->
  Pattern.ascii_only name = true /\ ascii_tree sub = true.
Proof.
  cbn [ascii_tree]. rewrite forallb_forall. intros Hall Hentry.
  specialize (Hall _ Hentry). cbn in Hall. now apply andb_true_iff in Hall.
Qed.

(** X2: For a builder whose environment name, if it has one, is a plain
    name (letters, digits, [_], [-] and [.]), over a tree and a start path
    of ASCII names: every descriptor the walk returns stands for a file
    whose path matches the pattern of its kind, the patterns being tried in
    the order [services.json], [parameters.json], [services_<env>.json]: a
    Service file matches the first, a Parameter file the second and not the
    first, an EnvironmentService file the third and neither of the others,
    and then [env] is set.  The descriptor carries no record, and never
    both flags. *)
Theorem findServiceJsonFiles_classifies this n :
  env_plain this ->
  ascii_tree n = true ->
  forall absolutePath lvl fd,
    Pattern.ascii_only absolutePath = true ->
    In fd (findServiceJsonFiles this n absolutePath lvl) ->
    config fd = None
    /\ (exists name, file fd = dir fd +:+ "/" +:+ name)
    /\ ((isEnvFile fd = Some false /\ isParamFile fd = Some false
         /\ Pattern.test pattern (file fd) = true)
        \/ (isEnvFile fd = Some false /\ isParamFile fd = Some true
            /\ Pattern.test pattern (file fd) = false
            /\ Pattern.test parameterPattern (file fd) = true)
        \/ (isEnvFile fd = Some true /\ isParamFile fd = Some false
            /\ Pattern.test pattern (file fd) = false
            /\ Pattern.test parameterPattern (file fd) = false
            /\ exists name,
                 env_name (env (options this)) = Some name
                 /\ Pattern.plain name = true
                 /\ Pattern.test (Pattern.RegExp ("services_" +:+ name +:+ ".json"))
                      (file fd) = true)).
Proof.
  intros Hplain.
  induction n as [ | | entries IH] using node_induction;
    intros Hnames absolutePath lvl fd Hpath Hin; try (now destruct Hin).
  rewrite findServiceJsonFiles_Directory in Hin.
  apply in_flat_map in Hin as [[name stat] [Hentry Hin]].
  destruct (ascii_tree_entry _ _ _ Hnames Hentry) as [Hname Hsub].
  rewrite List.Forall_forall in IH. specialize (IH _ Hentry). cbn [snd] in IH.
  unfold visit in Hin; cbn [fst snd] in Hin.
  destruct stat as [ | | sub].
  - apply classify_kinds in Hin as [Hfd Hkind].
    rewrite Hfd. cbn [config file dir isEnvFile isParamFile].
    split; [reflexivity | ]. split; [now exists name | ].
    destruct Hkind as [Hkind | [Hkind | (He & Hp & Hs & Hq & name' & Henv & Htest)]];
      [now left | now right; left | ].
    right. right. repeat (split; [assumption | ]).
    exists name'. unfold env_plain in Hplain. rewrite Henv in Hplain. now repeat split.
  - destruct Hin.
  - destruct (enters this _); [ | destruct Hin].
    apply (IH Hsub) in Hin; [exact Hin | ].
    apply ascii_only_append; [exact Hpath | ]. now apply ascii_only_append.
Qed.

Lemma findServiceJsonFiles_classifies_witness :
  config (mkFile "/app/services_test.json" "/app" None (Some true) (Some false) None)
  = None
  /\ (exists name, "/app/services_test.json" = "/app" +:+ "/" +:+ name)
  /\ ((Some true = Some false /\ Some false = Some false
       /\ Pattern.test pattern "/app/services_test.json" = true)
      \/ (Some true = Some false /\ Some false = Some true
          /\ Pattern.test pattern "/app/services_test.json" = false
          /\ Pattern.test parameterPattern "/app/services_test.json" = true)
      \/ (Some true = Some true /\ Some false = Some false
          /\ Pattern.test pattern "/app/services_test.json" = false
          /\ Pattern.test parameterPattern "/app/services_test.json" = false
          /\ exists name,
               env_name (env (options (mkBuilder Examples.env_test_pruning))) = Some name
               /\ Pattern.plain name = true
               /\ Pattern.test (Pattern.RegExp ("services_" +:+ name +:+ ".json"))
                    "/app/services_test.json" = true)).
Proof.
  apply (findServiceJsonFiles_classifies (mkBuilder Examples.env_test_pruning)
           (Directory Examples.with_node_modules) ltac:(reflexivity) ltac:(reflexivity)
           "/app" None
           (mkFile "/app/services_test.json" "/app" None (Some true) (Some false) None)
           ltac:(reflexivity)).
  vm_compute. auto.
Defined.



Lemma test_suffix p prefix s :
  Pattern.matches_to_end p s = true -> Pattern.test p (prefix +:+ s) = true.
Proof.
  intros Hmatch. induction prefix as [ | c prefix IH].
  - change (EmptyString +:+ s) with s. destruct s; cbn; now rewrite Hmatch.
  - change (String c prefix +:+ s) with (String c (prefix +:+ s)).
    cbn [Pattern.test]. rewrite IH. apply orb_true_r.
Qed.

(** X4: The dot of [services.json] is not escaped in the pattern and the
    pattern is not anchored at the start of the name: a file is a Service
    file as soon as its path ends with [services], any one character that
    ends no line, and [json]. *)
Theorem classify_any_separator this prefix c absolutePath lvl :
  Pattern.line_terminator c = false ->
  classify this (prefix +:+ "services" +:+ String c "json") absolutePath lvl
  = [mkFile (prefix +:+ "services" +:+ String c "json") absolutePath lvl
       (Some false) (Some false) None].
Proof.
  intros Hc. unfold classify.
  rewrite test_suffix; [reflexivity | ].
  change (Pattern.matches_to_end pattern ("services" +:+ String c "json"))
    with (negb (Pattern.line_terminator c) && true).
  now rewrite Hc.
Qed.

Lemma classify_any_separator_witness :
  classify new_Builder ("/app/my" +:+ "services" +:+ String "-" "json") "/app" None
  = [mkFile ("/app/my" +:+ "services" +:+ String "-" "json") "/app" None
       (Some false) (Some false) None].
Proof.
  exact (classify_any_separator new_Builder "/app/my" "-"%char "/app" None eq_refl).
Defined.

(** ** Directories left out of the walk *)

Lemma append_cons c s t : String c s +:+ t = String c (s +:+ t).
Proof. reflexivity. Qed.

Lemma substring_skip a m t :
  String.substring (String.length a) m (a +:+ t) = String.substring 0 m t.
Proof.
  induction a as [ | c a IH]; [reflexivity | ].
  rewrite append_cons. cbn [String.length String.substring]. exact IH.
Qed.

Lemma substring_head b t :
  String.substring 0 (String.length b) (b +:+ t) = b.
Proof.
  induction b as [ | c b IH].
  - cbn. now destruct t.
  - rewrite append_cons. cbn [String.length String.substring]. now rewrite IH.
Qed.

(** [indexOf] finds a string that is there. *)
Lemma indexOf_finds a needle b :
  needle <> EmptyString ->
  indexOf_is_minus_one (a +:+ needle +:+ b) needle = false.
Proof.
  intros Hneedle. unfold indexOf_is_minus_one.
  destruct (String.index 0 needle (a +:+ needle +:+ b)) eqn:Hindex; [reflexivity | ].
  exfalso.
  apply (index_correct3 0 (String.length a) _ _ Hindex Hneedle); [lia | ].
  now rewrite substring_skip, substring_head.
Qed.

Lemma descend_keeps a needle b names :
  exists b', descend (a +:+ needle +:+ b) names = a +:+ needle +:+ b'.
Proof.
  revert b. induction names as [ | name names IH]; intros b; cbn.
  - now exists b.
  - destruct (IH (b +:+ "/" +:+ name)) as [b' Hb'].
    exists b'. rewrite <- Hb'. unfold descend. cbn [fold_left].
    now rewrite !append_assoc.
Qed.

(** X5: With [ignoreNodeModulesDirectory] set, [node_modules] is looked for
    anywhere in the path of a directory, not as the name of one: no file is
    found in a directory, other than the starting one, whose path has
    [node_modules] in it, be it part of a longer name; and when the path of
    the starting directory has it, no subdirectory is entered at all. *)
Theorem findServiceJsonFiles_node_modules this n absolutePath lvl fd :
  flag (ignoreNodeModulesDirectory (options this)) = true ->
  In fd (findServiceJsonFiles this n absolutePath lvl) ->
  (dir fd = absolutePath \/ forall a b, dir fd <> a +:+ "node_modules" +:+ b)
  /\ (forall a b, absolutePath = a +:+ "node_modules" +:+ b -> dir fd = absolutePath).
Proof.
  intros Hflag Hin.
  assert (Hpruned := findServiceJsonFiles_prunes this n Hflag absolutePath lvl fd Hin).
  assert (Hnone : dir fd <> absolutePath -> forall a b, dir fd <> a +:+ "node_modules" +:+ b).
  { intros Hother a b Hdir. destruct Hpruned as [Hsame | Hminus]; [now elim Hother | ].
    rewrite Hdir, indexOf_finds in Hminus; discriminate. }
  split.
  - destruct (string_dec (dir fd) absolutePath) as [Hsame | Hother]; [now left | right].
    now apply Hnone.
  - intros a b ->.
    destruct (string_dec (dir fd) (a +:+ "node_modules" +:+ b)) as [Hsame | Hother];
      [exact Hsame | ].
    exfalso.
    apply findServiceJsonFiles_level in Hin as (names & Hdir & _).
    destruct (descend_keeps a "node_modules" b names) as [b' Hb'].
    rewrite Hb' in Hdir. exact (Hnone Hother a b' Hdir).
Qed.

Lemma findServiceJsonFiles_node_modules_witness :
  (dir (mkFile "/node_modules/pkg/x/services.json" "/node_modules/pkg/x" None
          (Some false) (Some false) None)
   = "/node_modules/pkg/x"
   \/ forall a b, "/node_modules/pkg/x" <> a +:+ "node_modules" +:+ b)
  /\ (forall a b,
        "/node_modules/pkg/x" = a +:+ "node_modules" +:+ b ->
        "/node_modules/pkg/x" = "/node_modules/pkg/x").
Proof.
  apply (findServiceJsonFiles_node_modules new_Builder
           (Directory [("lib", Directory [("services.json", File)]);
                       ("services.json", File)])
           "/node_modules/pkg/x" None
           (mkFile "/node_modules/pkg/x/services.json" "/node_modules/pkg/x" None
              (Some false) (Some false) None)).
  - reflexivity.
  - vm_compute. auto.
Defined.

(** A package that lives under [node_modules] is walked without its
    subdirectories, and a directory whose name only contains
    [node_modules] is left out like [node_modules] itself. *)
Example node_modules_in_the_path :
  List.map file
    (findServiceJsonFiles new_Builder
       (Directory [("lib", Directory [("services.json", File)]); ("services.json", File)])
       "/node_modules/pkg/x" None)
  = ["/node_modules/pkg/x/services.json"]
  /\ List.map file
       (findServiceJsonFiles new_Builder
          (Directory [("old_node_modules_2", Directory [("services.json", File)]);
                      ("lib", Directory [("services.json", File)])])
          "/app" None)
     = ["/app/lib/services.json"].
Proof. split; reflexivity. Qed.

(** ** The order of the groups *)

Lemma same_rank_sorted k l :
  Forall (fun f => group_rank f = k) l ->
  StronglySorted (fun a b => group_rank a <= group_rank b) l.
Proof.
  induction 1 as [ | f l Hf Hl IH]; constructor; [exact IH | ].
  eapply Forall_impl; [exact Hl | ]. cbn. intros; lia.
Qed.

Lemma filter_rank (keep : FileDescriptor -> bool) k files :
  (forall f, keep f = true -> group_rank f = k) ->
  Forall (fun f => group_rank f = k) (List.filter keep files).
Proof.
  intros Hkeep. apply List.Forall_forall. intros f Hf.
  apply List.filter_In in Hf as [_ Hf]. now apply Hkeep.
Qed.

(** X6: Whatever permutation the engine's sort returns, a file of an earlier
    group never comes after a file of a later group in the result of the
    sorter, the groups being Service, EnvironmentService, Parameter in this
    order. *)
Theorem sortFilesByHierarchy_group_order array_sort files l1 a l2 b l3 :
  (forall comparefn x, Permutation (array_sort comparefn x) x) ->
  sortFilesByHierarchy array_sort files = l1 ++ a :: l2 ++ b :: l3 ->
  group_rank a <= group_rank b.
Proof.
  intros Hperm Hout.
  assert (Hsorted : StronglySorted (fun a b => group_rank a <= group_rank b)
                      (sortFilesByHierarchy array_sort files)).
  { rewrite sortFilesByHierarchy_groups.
    assert (Hservice : Forall (fun f => group_rank f = 0)
                         (array_sort (fun a b => ToNumber_bool (sortFunc a b))
                            (List.filter is_Service files))).
    { rewrite Hperm. apply filter_rank. intros f. unfold is_Service, group_rank.
      now destruct (flag (isEnvFile f)), (flag (isParamFile f)). }
    assert (Henv : Forall (fun f => group_rank f = 1)
                     (array_sort (fun a b => ToNumber_bool (sortFunc a b))
                        (List.filter is_EnvironmentService files))).
    { rewrite Hperm. apply filter_rank. intros f. unfold is_EnvironmentService, group_rank.
      now destruct (flag (isEnvFile f)). }
    assert (Hparam : Forall (fun f => group_rank f = 2) (List.filter is_Parameter files)).
    { apply filter_rank. intros f. unfold is_Parameter, group_rank.
      now destruct (flag (isEnvFile f)), (flag (isParamFile f)). }
    rewrite List.Forall_forall in Hservice, Henv, Hparam.
    apply StronglySorted_app. split; [ | split].
    - intros x y Hx Hy. apply list_elem_of_In in Hx, Hy.
      rewrite (Hservice x Hx). lia.
    - apply (same_rank_sorted 0). now apply List.Forall_forall.
    - apply StronglySorted_app. split; [ | split].
      + intros x y Hx Hy. apply list_elem_of_In in Hx, Hy.
        now rewrite (Henv x Hx), (Hparam y Hy); auto.
      + apply (same_rank_sorted 1). now apply List.Forall_forall.
      + apply (same_rank_sorted 2). now apply List.Forall_forall. }
  rewrite Hout in Hsorted.
  apply StronglySorted_app in Hsorted as (_ & _ & Hsorted).
  apply StronglySorted_cons in Hsorted as [Hafter _].
  rewrite List.Forall_forall in Hafter. apply Hafter.
  apply in_or_app. right. now left.
Qed.

Lemma sortFilesByHierarchy_group_order_witness :
  group_rank (Examples.at_level "s0" 0 false false)
  <= group_rank (Examples.at_level "p0" 0 false true).
Proof.
  apply (sortFilesByHierarchy_group_order (@Engine.InsertionSort _) Examples.mixed
           [Examples.at_level "s2" 2 false false; Examples.at_level "s1" 1 false false]
           (Examples.at_level "s0" 0 false false)
           [Examples.at_level "e1" 1 true false; Examples.at_level "e0" 0 true false]
           (Examples.at_level "p0" 0 false true)
           [Examples.at_level "p2" 2 false true]).
  - exact (fun comparefn x => InsertionSort_permutation comparefn x).
  - reflexivity.
Defined.

(** X7: In a build, with a sort that keeps ties in place, the files are
    resolved in the order of discovery, the Service files first, then the
    EnvironmentService files, then the Parameter files: what the build
    returns is what the loop over the files makes of that list. *)
Theorem buildContainer_resolves_in_discovery_order
    require array_sort fuel this fs rootdirectory given :
  (forall comparefn a,
     (forall x y, In x a -> In y a -> comparefn x y = 0%Z) -> array_sort comparefn a = a) ->
  snd (buildContainer require array_sort fuel this fs rootdirectory given)
  = for_files require fuel
      (List.filter is_Service (discovered (set_options this given) fs rootdirectory)
       ++ List.filter is_EnvironmentService
            (discovered (set_options this given) fs rootdirectory)
       ++ List.filter is_Parameter (discovered (set_options this given) fs rootdirectory))
      (makeEmptyContainer rootdirectory).
Proof.
  intros Hties. rewrite buildContainer_unfold. cbn [snd].
  now rewrite (buildContainer_order _ _ _ _ Hties).
Qed.

Lemma buildContainer_resolves_in_discovery_order_witness :
  snd (buildContainer Examples.two_levels_require (@Engine.InsertionSort _) 1 new_Builder
         Examples.two_levels "/app" None)
  = for_files Examples.two_levels_require 1
      (List.filter is_Service (discovered (set_options new_Builder None)
                                 Examples.two_levels "/app")
       ++ List.filter is_EnvironmentService
            (discovered (set_options new_Builder None) Examples.two_levels "/app")
       ++ List.filter is_Parameter
            (discovered (set_options new_Builder None) Examples.two_levels "/app"))
      (makeEmptyContainer "/app").
Proof.
  exact (buildContainer_resolves_in_discovery_order Examples.two_levels_require
           (@Engine.InsertionSort _) 1 new_Builder Examples.two_levels "/app" None
           (fun comparefn a => InsertionSort_ties comparefn a)).
Defined.

(** ** Failing and unending resolutions *)

Lemma for_imports_threw parse fileinfo ns imports :
  forall c e,
    snd (for_imports parse fileinfo ns imports c) = Threw e ->
    exists import c',
      In import imports /\ snd (parse (importFile fileinfo import) c' (Some ns)) = Threw e.
Proof.
  induction imports as [ | import rest IH]; intros c e Hthrew; cbn [for_imports] in Hthrew.
  - discriminate Hthrew.
  - destruct (parse (importFile fileinfo import) c (Some ns)) as [next [ | e' | ]] eqn:Hone.
    + destruct (IH next e Hthrew) as (import' & c' & Hin & Hthrew').
      exists import', c'. split; [now right | exact Hthrew'].
    + exists import, c. split; [now left | ]. now rewrite Hone.
    + discriminate Hthrew.
Qed.

Lemma parseFile_threw require fuel :
  forall fileinfo container inherited path,
    snd (parseFile require fuel fileinfo container inherited) = Threw (LoadError path) ->
    require path = None.
Proof.
  induction fuel as [ | fuel IH]; intros fileinfo container inherited path Hthrew;
    [discriminate Hthrew | ].
  rewrite parseFile_step in Hthrew.
  destruct (load require fileinfo) as [cfg | ] eqn:Hload.
  - cbn zeta in Hthrew.
    destruct (for_imports (parseFile require fuel) fileinfo _ (Config.imports cfg)
                container) as [after [ | e | ]] eqn:Himports.
    + destruct (negb (flag (isParamFile fileinfo))); discriminate Hthrew.
    + cbn [snd] in Hthrew. injection Hthrew as ->.
      assert (Hthrew : snd (for_imports (parseFile require fuel) fileinfo
                              (effectiveNamespace inherited (Config.namespace cfg))
                              (Config.imports cfg) container)
                       = Threw (LoadError path)) by now rewrite Himports.
      apply for_imports_threw in Hthrew as (import & c' & _ & Hthrew).
      exact (IH _ _ _ path Hthrew).
    + discriminate Hthrew.
  - cbn [snd] in Hthrew. injection Hthrew as <-.
    unfold load in Hload. now destruct (config fileinfo).
Qed.

(** X8: A resolution that throws names a file the loader could not load: its
    own file, or the file of an import, of an import of an import, and so
    on.  When it is its own file, the container is left as it was. *)
Theorem parseFile_LoadError require fuel :
  forall fileinfo container inherited,
    (forall path,
       snd (parseFile require fuel fileinfo container inherited) = Threw (LoadError path) ->
       require path = None)
    /\ (config fileinfo = None ->
        require (file fileinfo) = None ->
        parseFile require (S fuel) fileinfo container inherited
        = (container, Threw (LoadError (file fileinfo)))).
Proof.
  intros fileinfo container inherited. split.
  - apply parseFile_threw.
  - intros Hconfig Hrequire. rewrite parseFile_step. unfold load.
    now rewrite Hconfig, Hrequire.
Qed.

Lemma parseFile_LoadError_witness :
  parseFile Examples.a_imports_b 1 (importFile Examples.app_services "./missing.json")
    (makeEmptyContainer "/app") (Some "a")
  = (makeEmptyContainer "/app", Threw (LoadError "/app/missing.json")).
Proof.
  exact (proj2 (parseFile_LoadError Examples.a_imports_b 0
                  (importFile Examples.app_services "./missing.json")
                  (makeEmptyContainer "/app") (Some "a"))
           eq_refl eq_refl).
Defined.

Lemma findServiceJsonFiles_no_config this n :
  forall absolutePath lvl fd,
    In fd (findServiceJsonFiles this n absolutePath lvl) -> config fd = None.
Proof.
  induction n as [ | | entries IH] using node_induction; intros absolutePath lvl fd Hin;
    try (now destruct Hin).
  rewrite findServiceJsonFiles_Directory in Hin.
  apply in_flat_map in Hin as [[name stat] [Hentry Hin]].
  rewrite List.Forall_forall in IH. specialize (IH _ Hentry). cbn [snd] in IH.
  unfold visit in Hin; cbn [fst snd] in Hin.
  destruct stat as [ | | sub].
  - now apply classify_spec in Hin.
  - destruct Hin.
  - destruct (enters this _); [ | destruct Hin]. now apply IH in Hin.
Qed.

Lemma sortFilesByHierarchy_permutation array_sort files :
  (forall comparefn x, Permutation (array_sort comparefn x) x) ->
  Permutation (sortFilesByHierarchy array_sort files) files.
Proof.
  intros Hperm. rewrite sortFilesByHierarchy_groups, !Hperm.
  apply three_groups_permutation.
Qed.

(** X9: Whatever permutation the engine's sort returns: a build that throws
    names a file the loader could not load, and a build whose first file to
    resolve cannot be loaded throws for that file, with nothing registered
    and none of the other files resolved. *)
Theorem buildContainer_LoadError require array_sort fuel this fs rootdirectory given :
  (forall comparefn x, Permutation (array_sort comparefn x) x) ->
  (forall path,
     snd (snd (buildContainer require array_sort fuel this fs rootdirectory given))
     = Threw (LoadError path) ->
     require path = None)
  /\ (forall first others,
        sortFilesByHierarchy array_sort (discovered (set_options this given) fs rootdirectory)
        = first :: others ->
        require (file first) = None ->
        snd (buildContainer require array_sort (S fuel) this fs rootdirectory given)
        = (makeEmptyContainer rootdirectory, Threw (LoadError (file first)))).
Proof.
  intros Hperm. rewrite !buildContainer_unfold. cbn [snd]. split.
  - intros path.
    generalize (makeEmptyContainer rootdirectory).
    induction (sortFilesByHierarchy array_sort
                 (discovered (set_options this given) fs rootdirectory))
      as [ | f files IH]; intros c Hthrew; cbn [for_files] in Hthrew;
      [discriminate Hthrew | ].
    destruct (parseFile require fuel f c None) as [next [ | e | ]] eqn:Hone.
    + now apply (IH next).
    + cbn [snd] in Hthrew. injection Hthrew as ->.
      apply (parseFile_threw require fuel f c None). now rewrite Hone.
    + discriminate Hthrew.
  - intros first others Hsorted Hrequire. unfold discovered in *.
    assert (Hconfig : config first = None).
    { apply (findServiceJsonFiles_no_config (set_options this given) (Directory fs)
               rootdirectory None).
      eapply Permutation_in; [apply (sortFilesByHierarchy_permutation _ _ Hperm) | ].
      rewrite Hsorted. now left. }
    rewrite Hsorted. cbn [for_files].
    rewrite parseFile_step. unfold load. now rewrite Hconfig, Hrequire.
Qed.

Lemma buildContainer_LoadError_witness :
  snd (buildContainer (fun _ => None) (@Engine.InsertionSort _) 1 new_Builder
         Examples.two_levels "/app" None)
  = (makeEmptyContainer "/app", Threw (LoadError "/app/services.json")).
Proof.
  exact (proj2
           (buildContainer_LoadError (fun _ => None) (@Engine.InsertionSort _) 0 new_Builder
              Examples.two_levels "/app" None
              (fun comparefn x => InsertionSort_permutation comparefn x))
           (mkFile "/app/services.json" "/app" None (Some false) (Some false) None)
           [mkFile "/app/sub/services.json" "/app/sub" (Some NaN) (Some false) (Some false)
              None]
           eq_refl eq_refl).
Defined.

Lemma for_imports_returns parse fileinfo ns imports :
  (forall import c,
     In import imports -> snd (parse (importFile fileinfo import) c (Some ns)) = Returned) ->
  forall c, snd (for_imports parse fileinfo ns imports c) = Returned.
Proof.
  induction imports as [ | import rest IH]; intros Hall c; cbn [for_imports].
  - reflexivity.
  - assert (Hone := Hall import c (or_introl eq_refl)).
    destruct (parse (importFile fileinfo import) c (Some ns)) as [next [ | e | ]];
      try discriminate Hone.
    apply IH. intros import' c' Hin. apply Hall. now right.
Qed.

Lemma parseFile_returned_more_fuel require fuel extra fd :
  (forall c ns, snd (parseFile require fuel fd c ns) = Returned) ->
  forall c ns, snd (parseFile require (extra + fuel) fd c ns) = Returned.
Proof.
  intros Hreturned c ns.
  rewrite parseFile_enough_fuel; [apply Hreturned | ].
  rewrite Hreturned. discriminate.
Qed.

Lemma imports_common_fuel require fileinfo imports :
  (forall import,
     In import imports ->
     exists fuel,
       forall c ns, snd (parseFile require fuel (importFile fileinfo import) c ns) = Returned) ->
  exists fuel,
    forall import,
      In import imports ->
      forall c ns, snd (parseFile require fuel (importFile fileinfo import) c ns) = Returned.
Proof.
  induction imports as [ | import rest IH]; intros Heach.
  - exists 0. intros import [].
  - destruct (Heach import (or_introl eq_refl)) as [fuel1 H1].
    destruct IH as [fuel2 H2].
    { intros import' Hin. apply Heach. now right. }
    exists (fuel1 + fuel2). intros import' [<- | Hin] c ns.
    + rewrite Nat.add_comm. now apply parseFile_returned_more_fuel.
    + apply parseFile_returned_more_fuel. intros c' ns'. now apply H2.
Qed.

(** X10: When the record of a file and the records of all the files it imports,
    directly or not, can be loaded, and the imports end at records without
    imports, the resolution returns: some depth of recursion is enough,
    whatever the container and the inherited namespace, and a larger one
    changes nothing. *)
Theorem parseFile_returns require fileinfo :
  loadable require fileinfo ->
  exists fuel,
    forall extra container inherited,
      snd (parseFile require (extra + fuel) fileinfo container inherited) = Returned.
Proof.
  induction 1 as [fileinfo cfg Hload _ IH].
  assert (Heach : forall import,
             In import (Config.imports cfg) ->
             exists fuel,
               forall c ns,
                 snd (parseFile require fuel (importFile fileinfo import) c ns) = Returned).
  { intros import Hin. destruct (IH import Hin) as [fuel Hfuel].
    exists fuel. intros c ns. exact (Hfuel 0 c ns). }
  apply imports_common_fuel in Heach as [fuel Hfuel].
  exists (S fuel). intros extra container inherited.
  apply parseFile_returned_more_fuel. clear extra container inherited.
  intros c ns. rewrite parseFile_step, Hload. cbn zeta.
  assert (Himports := for_imports_returns (parseFile require fuel) fileinfo
                        (effectiveNamespace ns (Config.namespace cfg)) (Config.imports cfg)
                        (fun import c' Hin => Hfuel import Hin c' _) c).
  destruct (for_imports _ fileinfo _ (Config.imports cfg) c) as [after [ | e | ]];
    try discriminate Himports.
  now destruct (negb (flag (isParamFile fileinfo))).
Qed.

Lemma a_imports_b_loadable : loadable Examples.a_imports_b Examples.app_services.
Proof.
  apply loadable_intro with (cfg := Config.mk (Some "a") ["./b.json"] [] []);
    [reflexivity | ].
  intros import [<- | []].
  apply loadable_intro with (cfg := Config.mk (Some "b") [] [("p", JNum 5)] []);
    [reflexivity | ].
  intros import [].
Defined.

Lemma parseFile_returns_witness :
  exists fuel,
    forall extra container inherited,
      snd (parseFile Examples.a_imports_b (extra + fuel) Examples.app_services container
             inherited) = Returned.
Proof.
  exact (parseFile_returns Examples.a_imports_b Examples.app_services a_imports_b_loadable).
Defined.

(** X11: A file whose first import is the file itself is never resolved: the
    recursion goes on at every depth, and no call reaches the
    container. *)
Theorem parseFile_self_import require fileinfo cfg import rest :
  config fileinfo = None ->
  require (file fileinfo) = Some cfg ->
  Config.imports cfg = import :: rest ->
  file (importFile fileinfo import) = file fileinfo ->
  dir (importFile fileinfo import) = dir fileinfo ->
  forall fuel container inherited,
    parseFile require fuel fileinfo container inherited = (container, OutOfFuel).
Proof.
  intros Hconfig Hrequire Himports Hfile Hdir fuel.
  assert (Hany : forall fd,
             config fd = None -> file fd = file fileinfo -> dir fd = dir fileinfo ->
             forall container inherited,
               parseFile require fuel fd container inherited = (container, OutOfFuel)).
  { induction fuel as [ | fuel IH]; intros fd Hc Hf Hd container inherited.
    - reflexivity.
    - rewrite parseFile_step. unfold load. rewrite Hc, Hf, Hrequire. cbn zeta.
      rewrite Himports. cbn [for_imports].
      rewrite IH; [reflexivity | reflexivity | | ].
      + unfold importFile in *. cbn [file] in *. now rewrite Hd.
      + unfold importFile in *. cbn [dir file] in *. now rewrite Hd. }
  now apply Hany.
Qed.

Lemma parseFile_self_import_witness :
  parseFile
    (fun path =>
       if String.eqb path "/app/services.json"
       then Some (Config.mk None ["./services.json"] [("x", JNum 1)] [])
       else None)
    1000 Examples.app_services (makeEmptyContainer "/app") None
  = (makeEmptyContainer "/app", OutOfFuel).
Proof.
  exact (parseFile_self_import
           (fun path =>
              if String.eqb path "/app/services.json"
              then Some (Config.mk None ["./services.json"] [("x", JNum 1)] [])
              else None)
           Examples.app_services
           (Config.mk None ["./services.json"] [("x", JNum 1)] [])
           "./services.json" [] eq_refl eq_refl eq_refl eq_refl eq_refl
           1000 (makeEmptyContainer "/app") None).
Defined.

(** ** Names and namespaces *)

Lemma append_empty_r s : s +:+ EmptyString = s.
Proof.
  induction s as [ | c s IH]; [reflexivity | ].
  rewrite append_cons. now rewrite IH.
Qed.

Lemma starts_with_trans p q s : starts_with p q -> starts_with q s -> starts_with p s.
Proof.
  intros [r ->] [r' ->]. exists (r +:+ r'). apply append_assoc.
Qed.

(** The prefix of a file extends the prefix it inherits. *)
Lemma modifiedNs_extends inherited declared :
  starts_with (modifiedNs (or_empty inherited))
    (modifiedNs (effectiveNamespace inherited declared)).
Proof.
  unfold effectiveNamespace, modifiedNs.
  destruct (or_empty inherited) as [ | c ns] eqn:Hns.
  - cbn [nonempty]. now eexists.
  - cbn [nonempty].
    destruct declared as [d | ]; [ | exists EmptyString; now rewrite append_empty_r].
    destruct (nonempty d); [ | exists EmptyString; now rewrite append_empty_r].
    change (nonempty (String c ns +:+ "." +:+ d)) with true. cbn match.
    exists (d +:+ "."). now rewrite !append_assoc.
Qed.

Lemma made_under_weaken p q c : starts_with p q -> made_under q c -> made_under p c.
Proof.
  intros Hpq [Hname Hdef]. split; [ | exact Hdef]. now apply (starts_with_trans p q).
Qed.

Lemma own_parameters_made_under prefix params :
  Forall (made_under prefix) (own_parameters prefix params).
Proof.
  apply List.Forall_forall. intros c Hc. unfold own_parameters in Hc.
  apply in_map_iff in Hc as ([k v] & <- & _). split; [now eexists | exact I].
Qed.

Lemma own_services_made_under rootDirectory ns serviceConfigs :
  Forall (made_under (modifiedNs ns))
    (own_services (modifiedNs ns) rootDirectory ns serviceConfigs).
Proof.
  apply List.Forall_forall. intros c Hc. unfold own_services in Hc.
  apply in_map_iff in Hc as ([k r] & <- & _). split; [now eexists | ].
  now exists ns, k.
Qed.

Lemma for_imports_made_under parse fileinfo ns imports :
  (forall fd c,
     exists J,
       Container.journal (fst (parse fd c (Some ns))) = Container.journal c ++ J
       /\ Forall (made_under (modifiedNs ns)) J) ->
  forall c,
    exists J,
      Container.journal (fst (for_imports parse fileinfo ns imports c))
      = Container.journal c ++ J
      /\ Forall (made_under (modifiedNs ns)) J.
Proof.
  intros Hparse.
  induction imports as [ | import rest IH]; intros c; cbn [for_imports].
  - exists []. split; [now rewrite app_nil_r | constructor].
  - destruct (Hparse (importFile fileinfo import) c) as (J & HJ & Hunder).
    destruct (parse (importFile fileinfo import) c (Some ns)) as [next [ | e | ]];
      cbn [fst] in *; try (now exists J).
    destruct (IH next) as (J' & HJ' & Hunder'). exists (J ++ J'). split.
    + now rewrite HJ', HJ, app_assoc.
    + now apply Forall_app.
Qed.

(** X12: Whatever a resolution registers, for the file or for its imports at
    any depth, is registered under the inherited namespace: every name
    starts with the inherited namespace and a dot (with nothing when no
    namespace is inherited), and every definition is registered under the
    namespace it records, followed by a dot when it is not empty. *)
Theorem parseFile_stays_in_namespace require fuel :
  forall fileinfo container inherited,
    exists J,
      Container.journal (fst (parseFile require fuel fileinfo container inherited))
      = Container.journal container ++ J
      /\ Forall (made_under (modifiedNs (or_empty inherited))) J.
Proof.
  induction fuel as [ | fuel IH]; intros fileinfo container inherited.
  - exists []. split; [cbn; now rewrite app_nil_r | constructor].
  - rewrite parseFile_step.
    destruct (load require fileinfo) as [cfg | ];
      [ | exists []; split; [cbn; now rewrite app_nil_r | constructor]].
    cbn zeta.
    set (ns := effectiveNamespace inherited (Config.namespace cfg)).
    assert (Hextends := modifiedNs_extends inherited (Config.namespace cfg)). fold ns in Hextends.
    destruct (for_imports_made_under (parseFile require fuel) fileinfo ns
                (Config.imports cfg) (fun fd c => IH fd c (Some ns)) container)
      as (J & HJ & Hunder).
    assert (Hweak : Forall (made_under (modifiedNs (or_empty inherited))) J).
    { eapply Forall_impl; [exact Hunder | ]. intros c. now apply made_under_weaken. }
    destruct (for_imports _ fileinfo ns _ container) as [after [ | e | ]]; cbn [fst] in *;
      try (now exists J).
    destruct (addParameters_journal (modifiedNs ns) (Config.parameters cfg) after)
      as [Hparams _].
    assert (Hown : Forall (made_under (modifiedNs (or_empty inherited)))
                     (own_parameters (modifiedNs ns) (Config.parameters cfg))).
    { eapply Forall_impl; [apply own_parameters_made_under | ].
      intros c. now apply made_under_weaken. }
    destruct (negb (flag (isParamFile fileinfo))); cbn [fst].
    + destruct (addServices_journal (modifiedNs ns) (dir fileinfo) ns (Config.services cfg)
                  (addParameters (modifiedNs ns) (Config.parameters cfg) after))
        as [-> _].
      rewrite Hparams, HJ, <- !app_assoc. eexists. split; [reflexivity | ].
      repeat apply Forall_app_2; auto.
      eapply Forall_impl; [apply own_services_made_under | ].
      intros c. now apply made_under_weaken.
    + rewrite Hparams, HJ, <- !app_assoc. eexists. split; [reflexivity | ].
      now apply Forall_app_2.
Qed.

(** ** The path of an import *)

Lemma no_slash_append a b : Path.no_slash (a +:+ "/" +:+ b) = false.
Proof.
  induction a as [ | c a IH]; [reflexivity | ].
  rewrite append_cons. cbn [Path.no_slash]. rewrite IH. apply andb_false_r.
Qed.

Lemma length_append a b :
  String.length (a +:+ b) = String.length a + String.length b.
Proof.
  induction a as [ | c a IH]; [reflexivity | ].
  rewrite append_cons. cbn [String.length]. now rewrite IH.
Qed.

Lemma substring_whole s : String.substring 0 (String.length s) s = s.
Proof.
  induction s as [ | c s IH]; [reflexivity | ].
  cbn [String.length String.substring]. now rewrite IH.
Qed.

Lemma ends_with_suffix name suffix : Path.ends_with suffix (name +:+ suffix) = true.
Proof.
  unfold Path.ends_with. rewrite length_append.
  replace (String.length name + String.length suffix - String.length suffix)
    with (String.length name) by lia.
  rewrite substring_skip, substring_whole.
  rewrite String.eqb_refl, andb_true_r. apply Nat.leb_le. lia.
Qed.

(** Removing the name of the file gives back the directory. *)
Lemma remove_json_basename_of directory name :
  name <> EmptyString ->
  Path.no_slash name = true ->
  Path.remove_json_basename (directory +:+ "/" +:+ name +:+ ".json") = directory.
Proof.
  intros Hname Hslash.
  assert (Hno : Path.no_slash (name +:+ ".json") = true).
  { clear Hname. induction name as [ | c name IH]; [reflexivity | ].
    rewrite append_cons. cbn [Path.no_slash] in *.
    apply andb_true_iff in Hslash as [-> Hslash]. now rewrite IH. }
  induction directory as [ | c directory IH].
  - change (EmptyString +:+ "/" +:+ name +:+ ".json")
      with (String "/" (name +:+ ".json")).
    cbn [Path.remove_json_basename]. rewrite Hno, ends_with_suffix, length_append.
    destruct name as [ | c' name]; [now elim Hname | ].
    cbn [String.length]. replace (5 <? S (String.length name) + 5)%nat with true;
      [reflexivity | ].
    symmetry. apply Nat.ltb_lt. lia.
  - rewrite append_cons. cbn [Path.remove_json_basename].
    rewrite no_slash_append, andb_false_r. cbn [andb]. now rewrite IH.
Qed.

Lemma no_slash_no_dot_slash s :
  Path.no_slash s = true ->
  String.index 0 "./" s = None /\ String.prefix "../" s = false.
Proof.
  intros Hslash. split.
  - induction s as [ | c s IH]; [reflexivity | ].
    cbn [Path.no_slash] in Hslash. apply andb_true_iff in Hslash as [Hc Hslash].
    cbn [String.index]. rewrite (IH Hslash).
    destruct s as [ | c' s]; cbn [String.prefix].
    + now destruct (ascii_dec "." c).
    + cbn [Path.no_slash] in Hslash. apply andb_true_iff in Hslash as [Hc' _].
      destruct (ascii_dec "." c); [ | reflexivity].
      destruct (ascii_dec "/" c') as [<- | ]; [discriminate Hc' | reflexivity].
  - destruct s as [ | c [ | c' [ | c'' s]]]; cbn [String.prefix]; try reflexivity.
    + now destruct (ascii_dec "." c).
    + destruct (ascii_dec "." c); [ | reflexivity]. now destruct (ascii_dec "." c').
    + cbn [Path.no_slash] in Hslash.
      apply andb_true_iff in Hslash as [_ Hslash].
      apply andb_true_iff in Hslash as [_ Hslash].
      apply andb_true_iff in Hslash as [Hc'' _].
      destruct (ascii_dec "." c); [ | reflexivity].
      destruct (ascii_dec "." c'); [ | reflexivity].
      destruct (ascii_dec "/" c'') as [<- | ]; [discriminate Hc'' | reflexivity].
Qed.

Lemma prefix_empty s : String.prefix EmptyString s = true.
Proof. now destruct s. Qed.

Lemma replace_first_dot_slash_head rest :
  Path.replace_first_dot_slash (String "." (String "/" rest)) = String "/" rest.
Proof.
  unfold Path.replace_first_dot_slash.
  assert (Hindex : String.index 0 "./" (String "." (String "/" rest)) = Some 0).
  { cbn [String.index String.prefix].
    destruct (ascii_dec "." "."); [ | congruence].
    destruct (ascii_dec "/" "/"); [ | congruence].
    now rewrite prefix_empty. }
  rewrite Hindex. cbn [String.length String.substring Nat.add Nat.sub].
  now rewrite Nat.sub_0_r, substring_whole.
Qed.

Lemma replace_leading_dotdot_dot_slash rest :
  Path.replace_leading_dotdot (String "." (String "/" rest)) = String "." (String "/" rest).
Proof.
  unfold Path.replace_leading_dotdot. cbn [String.prefix].
  destruct (ascii_dec "." "."); [ | congruence].
  now destruct (ascii_dec "." "/").
Qed.

Lemma replace_leading_dotdot_head rest :
  Path.replace_leading_dotdot (String "." (String "." (String "/" rest)))
  = "./../" +:+ rest.
Proof.
  unfold Path.replace_leading_dotdot. cbn [String.prefix].
  destruct (ascii_dec "." "."); [ | congruence].
  destruct (ascii_dec "/" "/"); [ | congruence].
  rewrite prefix_empty. cbn [String.length String.substring Nat.sub].
  now rewrite Nat.sub_0_r, substring_whole.
Qed.

(** X13: For a file name [name] without a slash: the import [./name.json] is
    the file of that name in the directory of the importing file, with the
    same directory; the import [../name.json] is reached through [/..],
    which stays in the paths; and the import [name.json], without [./], is
    glued to the directory with no slash between them.  The import keeps
    the level of the importing file and is of no kind. *)
Theorem importFile_paths fileinfo name :
  name <> EmptyString ->
  Path.no_slash name = true ->
  importFile fileinfo ("./" +:+ name +:+ ".json")
  = mkFile (dir fileinfo +:+ "/" +:+ name +:+ ".json") (dir fileinfo) (level fileinfo)
      None None None
  /\ importFile fileinfo ("../" +:+ name +:+ ".json")
     = mkFile (dir fileinfo +:+ "/../" +:+ name +:+ ".json") (dir fileinfo +:+ "/..")
         (level fileinfo) None None None
  /\ file (importFile fileinfo (name +:+ ".json")) = dir fileinfo +:+ name +:+ ".json".
Proof.
  intros Hname Hslash. unfold importFile. split; [ | split].
  - change ("./" +:+ name +:+ ".json") with (String "." (String "/" (name +:+ ".json"))).
    rewrite replace_leading_dotdot_dot_slash, replace_first_dot_slash_head.
    change (String "/" (name +:+ ".json")) with ("/" +:+ name +:+ ".json").
    f_equal. now apply remove_json_basename_of.
  - change ("../" +:+ name +:+ ".json")
      with (String "." (String "." (String "/" (name +:+ ".json")))).
    rewrite replace_leading_dotdot_head.
    change ("./../" +:+ name +:+ ".json")
      with (String "." (String "/" ("../" +:+ name +:+ ".json"))).
    rewrite replace_first_dot_slash_head.
    change (String "/" ("../" +:+ name +:+ ".json")) with ("/../" +:+ name +:+ ".json").
    f_equal.
    change (dir fileinfo +:+ "/../" +:+ name +:+ ".json")
      with (dir fileinfo +:+ "/.." +:+ "/" +:+ name +:+ ".json").
    rewrite <- (append_assoc (dir fileinfo) "/.."). now apply remove_json_basename_of.
  - cbn [file].
    assert (Hno : Path.no_slash (name +:+ ".json") = true).
    { clear Hname. induction name as [ | c name IH]; [reflexivity | ].
      rewrite append_cons. cbn [Path.no_slash] in *.
      apply andb_true_iff in Hslash as [-> Hslash]. now rewrite IH. }
    destruct (no_slash_no_dot_slash _ Hno) as [Hindex Hprefix].
    unfold Path.replace_leading_dotdot. rewrite Hprefix.
    unfold Path.replace_first_dot_slash. now rewrite Hindex.
Qed.

Lemma importFile_paths_witness :
  importFile Examples.app_services ("./" +:+ "b" +:+ ".json")
  = mkFile ("/app" +:+ "/" +:+ "b" +:+ ".json") "/app" None None None None
  /\ importFile Examples.app_services ("../" +:+ "b" +:+ ".json")
     = mkFile ("/app" +:+ "/../" +:+ "b" +:+ ".json") ("/app" +:+ "/..") None None None None
  /\ file (importFile Examples.app_services ("b" +:+ ".json")) = "/app" +:+ "b" +:+ ".json".
Proof.
  apply (importFile_paths Examples.app_services "b"); [discriminate | reflexivity].
Defined.

(** ** Method calls and tags of a definition *)

Lemma hasMethodCall_from_last l method args name :
  Def.hasMethodCall_from (l ++ [pair_of (VStr method) args]) name
  = match Def.hasMethodCall_from l name with
    | Def.Answer b => Def.Answer (b || String.eqb method name)
    | Def.Raise e => Def.Raise e
    end.
Proof.
  induction l as [ | entry l IH]; cbn [app Def.hasMethodCall_from].
  - cbn. now destruct (String.eqb method name).
  - destruct (Def.index entry 0) as [first | ]; [ | reflexivity].
    destruct (Def.is_the_string first name); [reflexivity | exact IH].
Qed.

(** X14: [hasMethodCall] finds what [addMethodCall] added: once
    [addMethodCall(method, args)] has returned, [hasMethodCall(name)]
    answers [true] for [name] = [method], and for any other name what it
    answered before, provided it answered then.  On a new definition it
    answers [false]. *)
Theorem hasMethodCall_after_addMethodCall method args this this' name b :
  Def.addMethodCall (VStr method) args this = (this', Def.Return) ->
  Def.hasMethodCall name this = Def.Answer b ->
  Def.hasMethodCall name this' = Def.Answer (b || String.eqb method name)
  /\ Def.hasMethodCall name Def.new = Def.Answer false.
Proof.
  unfold Def.addMethodCall, Def.hasMethodCall.
  destruct (negb (truthy (VStr method)) || negb (is_string (VStr method)));
    [discriminate | ].
  destruct (Def.calls this) as [ | | | | | l | ] eqn:Hcalls; try discriminate.
  intros Hadded Hbefore. injection Hadded as <-.
  cbn [Def.calls Def.set_calls Def.enumerate] in *.
  change (VArr [VStr method; args]) with (pair_of (VStr method) args).
  now rewrite hasMethodCall_from_last, Hbefore.
Qed.

Lemma hasMethodCall_after_addMethodCall_witness :
  Def.hasMethodCall "start"
    (fst (Def.addMethodCall (VStr "start") (VArr [])
            (fst (Def.addMethodCall (VStr "init") (VArr [VNum 1]) Def.new))))
  = Def.Answer (false || String.eqb "start" "start")
  /\ Def.hasMethodCall "start" Def.new = Def.Answer false.
Proof.
  exact (hasMethodCall_after_addMethodCall "start" (VArr [])
           (fst (Def.addMethodCall (VStr "init") (VArr [VNum 1]) Def.new))
           (fst (Def.addMethodCall (VStr "start") (VArr [])
                   (fst (Def.addMethodCall (VStr "init") (VArr [VNum 1]) Def.new))))
           "start" false eq_refl eq_refl).
Defined.

(** X15: [getTag] and [hasTag] agree, and [getTag] hands back the first tag of
    that name: [getTag] answers [null] exactly when [hasTag] answers
    [false]; otherwise it answers a tag whose [name] is the one asked for,
    no tag before it in [tags] has that name, and [hasTag] answers [true];
    and when one of them throws, on a tag that is [null] or [undefined]
    met before a match, so does the other. *)
Theorem getTag_hasTag name this :
  match Def.getTag name this with
  | Def.Answer tag =>
      (tag = VNull /\ Def.hasTag name this = Def.Answer false)
      \/ (Def.hasTag name this = Def.Answer true
          /\ Def.name_of tag = Some (VStr name)
          /\ exists before after,
               Def.enumerate (Def.tags this) = before ++ tag :: after
               /\ Forall (fun t => Def.name_of t <> None
                                   /\ Def.name_of t <> Some (VStr name)) before)
  | Def.Raise e => Def.hasTag name this = Def.Raise e
  end.
Proof.
  unfold Def.getTag, Def.hasTag.
  induction (Def.enumerate (Def.tags this)) as [ | tag rest IH];
    cbn [Def.getTag_from Def.hasTag_from].
  - now left.
  - destruct (Def.name_of tag) as [n | ] eqn:Hn; [ | reflexivity].
    destruct (Def.is_the_string n name) eqn:Hsame.
    + right. split; [reflexivity | ].
      destruct n; try discriminate Hsame.
      apply String.eqb_eq in Hsame as ->. split; [exact Hn | ].
      exists [], rest. now split.
    + destruct (Def.getTag_from rest name) as [found | e]; [ | exact IH].
      destruct IH as [[-> Hnone] | (Hsome & Hname & before & after & Hsplit & Hbefore)];
        [now left | right].
      split; [exact Hsome | split; [exact Hname | ]].
      exists (tag :: before), after. split; [now rewrite Hsplit | ].
      constructor; [ | exact Hbefore].
      rewrite Hn. split; [discriminate | ].
      intros Heq. injection Heq as ->. cbn in Hsame.
      now rewrite String.eqb_refl in Hsame.
Qed.

(** X16: A definition normalized from a record without [calls] and without
    [tags]: [hasMethodCall], [hasTag] and [getTag] find nothing, and
    [addMethodCall] throws a [TypeError] for a valid method name, leaving
    the definition as it was, because [calls] is [undefined].  With
    [calls] an array in the record, [addMethodCall] returns, [calls] holds
    the entries of the record followed by the pair, and the other fields
    are as they were. *)
Theorem buildDefinition_then_methods config rootDirectory ns method args name :
  valid_method method ->
  (raw_calls config = None ->
   Def.hasMethodCall name (buildDefinition config rootDirectory ns) = Def.Answer false
   /\ Def.addMethodCall method args (buildDefinition config rootDirectory ns)
      = (buildDefinition config rootDirectory ns, Def.Throw Def.TypeError))
  /\ (forall items,
        raw_calls config = Some (JArr items) ->
        snd (Def.addMethodCall method args (buildDefinition config rootDirectory ns))
        = Def.Return
        /\ Def.calls
             (fst (Def.addMethodCall method args (buildDefinition config rootDirectory ns)))
           = VArr (List.map of_json items ++ [pair_of method args])
        /\ other_fields
             (fst (Def.addMethodCall method args (buildDefinition config rootDirectory ns)))
           = other_fields (buildDefinition config rootDirectory ns))
  /\ (raw_tags config = None ->
      Def.hasTag name (buildDefinition config rootDirectory ns) = Def.Answer false
      /\ Def.getTag name (buildDefinition config rootDirectory ns) = Def.Answer VNull).
Proof.
  intros Hvalid. split; [ | split].
  - intros Hcalls. unfold Def.hasMethodCall, Def.addMethodCall.
    rewrite (valid_method_accepted _ Hvalid). cbn [Def.calls buildDefinition].
    now rewrite Hcalls.
  - intros items Hcalls.
    rewrite (addMethodCall_appends method args _ (List.map of_json items) Hvalid).
    + now repeat split.
    + cbn [Def.calls buildDefinition]. now rewrite Hcalls.
  - intros Htags. unfold Def.hasTag, Def.getTag. cbn [Def.tags buildDefinition].
    now rewrite Htags.
Qed.

Lemma buildDefinition_then_methods_witness :
  Def.addMethodCall (VStr "init") (VArr [])
    (buildDefinition (Examples.class_only "Db") "/app" "")
  = (buildDefinition (Examples.class_only "Db") "/app" "", Def.Throw Def.TypeError).
Proof.
  refine (proj2 (proj1 (buildDefinition_then_methods (Examples.class_only "Db") "/app" ""
                          (VStr "init") (VArr []) "init" _) eq_refl)).
  exists "init". split; [reflexivity | discriminate].
Defined.

(** ** A witness of the order of the insertion sort *)

Lemma InsertionSort_deeper_first_witness :
  StronglySorted (fun x y => (depth_of y <= depth_of x)%Z)
    (Engine.InsertionSort (fun a b => ToNumber_bool (sortFunc a b)) Examples.mixed).
Proof.
  apply (InsertionSort_deeper_first Examples.mixed).
  repeat constructor; eexists; reflexivity.
Defined.

(** ** The level of a file *)

Lemma double_plus_one_exact z :
  (- 2 ^ 53 <= z)%Z -> (z + 1 <= 2 ^ 53)%Z -> double_plus_one z = (z + 1)%Z.
Proof.
  intros Hlow Hhigh. unfold double_plus_one.
  replace (Z.abs (z + 1) <=? 2 ^ 53)%Z with true; [reflexivity | ].
  symmetry. apply Z.leb_le. lia.
Qed.

(** Beyond [2 ^ 53] the sum is no longer the next integer. *)
Example double_plus_one_rounds :
  double_plus_one (2 ^ 53) = (2 ^ 53)%Z
  /\ double_plus_one (2 ^ 53 + 2) = (2 ^ 53 + 4)%Z
  /\ double_plus_one (2 ^ 54) = (2 ^ 54)%Z.
Proof. repeat split. Qed.

Lemma bump_integer k z :
  (- 2 ^ 53 <= z)%Z -> (z + Z.of_nat k <= 2 ^ 53)%Z ->
  bump k (Some (Int z)) = Some (Int (z + Z.of_nat k)).
Proof.
  intros Hlow. induction k as [ | k IH]; intros Hhigh.
  - cbn. now rewrite Z.add_0_r.
  - rewrite bump_succ, IH by lia. unfold plus_one. cbn [ToNumber].
    rewrite double_plus_one_exact by lia. do 2 f_equal. lia.
Qed.

Lemma findServiceJsonFiles_chain this n :
  forall absolutePath lvl fd,
    In fd (findServiceJsonFiles this n absolutePath lvl) ->
    exists names name,
      leads_to names n name
      /\ dir fd = descend absolutePath names
      /\ file fd = dir fd +:+ "/" +:+ name
      /\ level fd = bump (List.length names) lvl.
Proof.
  induction n as [ | | entries IH] using node_induction; intros absolutePath lvl fd Hin;
    try (now destruct Hin).
  rewrite findServiceJsonFiles_Directory in Hin.
  apply in_flat_map in Hin as [[name stat] [Hentry Hin]].
  rewrite List.Forall_forall in IH. specialize (IH _ Hentry). cbn [snd] in IH.
  unfold visit in Hin; cbn [fst snd] in Hin.
  destruct stat as [ | | sub].
  - apply classify_spec in Hin as (Hfile & Hdir & Hlevel & _).
    exists [], name. cbn [leads_to descend fold_left List.length bump].
    rewrite Hfile, Hdir. repeat split; [ | exact Hlevel]. now exists entries.
  - destruct Hin.
  - destruct (enters this _); [ | destruct Hin].
    apply IH in Hin as (names & fname & Hleads & Hdir & Hfile & Hlevel).
    exists (name :: names), fname. cbn [leads_to]. repeat split; try assumption.
    now exists entries, (Directory sub).
Qed.

(** X1: Called with a level that is an integer [z] not below [- 2 ^ 53],
    the walk counts the directories: a file it returns is listed in a
    directory reached from the starting one through a chain of
    subdirectories, each an entry of the one before, its path is that of
    this directory, a slash and its name, and as long as [z] plus the
    length of the chain does not exceed [2 ^ 53] it carries that sum as its
    level. *)
Theorem findServiceJsonFiles_counts_depth this n absolutePath z fd :
  (- 2 ^ 53 <= z)%Z ->
  In fd (findServiceJsonFiles this n absolutePath (Some (Int z))) ->
  exists names name,
    leads_to names n name
    /\ dir fd = descend absolutePath names
    /\ file fd = dir fd +:+ "/" +:+ name
    /\ ((z + Z.of_nat (List.length names) <= 2 ^ 53)%Z ->
        level fd = Some (Int (z + Z.of_nat (List.length names)))).
Proof.
  intros Hlow Hin.
  apply findServiceJsonFiles_chain in Hin as (names & name & Hleads & Hdir & Hfile & Hlevel).
  exists names, name. repeat split; try assumption.
  intros Hhigh. now rewrite Hlevel, bump_integer.
Qed.

Lemma findServiceJsonFiles_counts_depth_witness :
  exists names name,
    leads_to names (Directory Examples.two_levels) name
    /\ "/app/sub" = descend "/app" names
    /\ "/app/sub/services.json" = "/app/sub" +:+ "/" +:+ name
    /\ ((0 + Z.of_nat (List.length names) <= 2 ^ 53)%Z ->
        Some (Int 1) = Some (Int (0 + Z.of_nat (List.length names)))).
Proof.
  apply (findServiceJsonFiles_counts_depth new_Builder (Directory Examples.two_levels)
           "/app" 0
           (mkFile "/app/sub/services.json" "/app/sub" (Some (Int 1)) (Some false)
              (Some false) None)).
  - lia.
  - vm_compute. auto.
Defined.
